(** * Hetzner Cloud VPS management script: model and verified properties

    A shallow embedding of [src/hetzner.py].  The script is a thin
    command-line client: it parses its arguments, resolves an API token,
    performs one or two HTTP requests and prints to the console.

    - [Py] holds the Python values the script manipulates (decoded JSON,
      strings) and the built-in operations it applies to them, each with the
      exception it can raise.
    - [Sys] holds the process model: a world with the remote service, the
      environment, standard input and the trace of observable events, and a
      small monad for computations that can return, call [sys.exit] or raise.
    - [HetznerCloudManager] and the top-level definitions that follow are the
      class and the functions of the script, in source order.
    - The theorems come last. *)

From Stdlib Require Import List String Ascii ZArith NArith Bool Lia.
From Stdlib Require Import DecimalString.
Import ListNotations.

Local Open Scope string_scope.

(* ################################################################# *)
(** * Python values and built-ins *)

Module Py.

(** Decoded JSON, which is also the Python data the script builds.  A [dict]
    is an association list in insertion order with unique keys.  Numbers are
    the integers: no field read by the script is fractional.  A [str] is a
    sequence of code points below 256, one per [ascii]. *)
#[warnings="-register-all"]
Inductive json : Type :=
| JNull
| JBool (b : bool)
| JInt (z : Z)
| JStr (s : string)
| JArr (l : list json)
| JObj (kvs : list (string * json)).

(** The exceptions the script can meet. *)
Inductive exn : Type :=
| KeyError
| TypeError
| AttributeError
| JSONDecodeError
| ConnectionError
| EOFError.

Definition exn_eqb (a b : exn) : bool :=
  match a, b with
  | KeyError, KeyError | TypeError, TypeError
  | AttributeError, AttributeError | JSONDecodeError, JSONDecodeError
  | ConnectionError, ConnectionError | EOFError, EOFError => true
  | _, _ => false
  end.

(** How a computation ends: with a value, through [sys.exit(code)], or with an
    exception. *)
Inductive outcome (A : Type) : Type :=
| Ret (a : A)
| Exit (code : Z)
| Raise (e : exn).
Arguments Ret {A} a.
Arguments Exit {A} code.
Arguments Raise {A} e.

(** The newline character and the strings built from single characters. *)
Definition nl : string := String (ascii_of_nat 10) "".
Definition str1 (c : ascii) : string := String c "".

Fixpoint chars (s : string) : list ascii :=
  match s with
  | EmptyString => []
  | String c s' => c :: chars s'
  end.

Fixpoint smap (f : ascii -> ascii) (s : string) : string :=
  match s with
  | EmptyString => EmptyString
  | String c s' => String (f c) (smap f s')
  end.

Fixpoint join (sep : string) (l : list string) : string :=
  match l with
  | [] => ""
  | [x] => x
  | x :: rest => x ++ sep ++ join sep rest
  end.

Fixpoint replicate (n : nat) (s : string) : string :=
  match n with
  | O => ""
  | S n' => s ++ replicate n' s
  end.

(** [str(n)] for an [int]. *)
Definition str_of_Z (z : Z) : string := NilZero.string_of_int (Z.to_int z).

(** [c.isdigit()] for one code point below 256: the ASCII digits and the
    superscripts two, three and one. *)
Definition isdigit_char (c : ascii) : bool :=
  let n := N_of_ascii c in
  ((48 <=? n) && (n <=? 57) || (n =? 178) || (n =? 179) || (n =? 185))%N.

(** [s.isdigit()]: at least one character, all of them digits. *)
Definition isdigit (s : string) : bool :=
  match s with
  | EmptyString => false
  | _ => forallb isdigit_char (chars s)
  end.

(** [c.lower()] for one code point below 256. *)
Definition lower_char (c : ascii) : ascii :=
  let n := N_of_ascii c in
  if ((65 <=? n) && (n <=? 90)
      || (192 <=? n) && (n <=? 222) && negb (n =? 215))%N
  then ascii_of_N (n + 32) else c.

Definition lower (s : string) : string := smap lower_char s.

(** [repr(s)] for a [str]: single quotes, unless the text has a single quote
    and no double quote; backslash escapes for the quote, the backslash and
    what does not print. *)
Definition dquote : ascii := ascii_of_nat 34.

Definition hex_digit (n : N) : string :=
  str1 (ascii_of_N (if (n <? 10)%N then 48 + n else 87 + n)).

Definition printable (c : ascii) : bool :=
  let n := N_of_ascii c in
  negb ((n <? 32) || (127 <=? n) && (n <=? 160) || (n =? 173))%N.

Definition repr_char (quote : ascii) (c : ascii) : string :=
  let n := N_of_ascii c in
  if (n =? 92)%N then "\\"
  else if Ascii.eqb c quote then "\" ++ str1 c
  else if (n =? 10)%N then "\n"
  else if (n =? 13)%N then "\r"
  else if (n =? 9)%N then "\t"
  else if printable c then str1 c
  else "\x" ++ hex_digit (n / 16) ++ hex_digit (n mod 16).

Definition repr_str (s : string) : string :=
  let has q := existsb (Ascii.eqb q) (chars s) in
  let quote := if has "'"%char && negb (has dquote) then dquote else "'"%char in
  str1 quote ++ concat "" (map (repr_char quote) (chars s)) ++ str1 quote.

(** [repr(v)], and [str(v)], which differs on a [str] only. *)
Fixpoint repr (v : json) : string :=
  match v with
  | JNull => "None"
  | JBool true => "True"
  | JBool false => "False"
  | JInt z => str_of_Z z
  | JStr s => repr_str s
  | JArr l => "[" ++ join ", " (map repr l) ++ "]"
  | JObj kvs =>
      "{" ++ join ", " (map (fun kv => repr_str (fst kv) ++ ": " ++ repr (snd kv)) kvs)
          ++ "}"
  end.

Definition str (v : json) : string :=
  match v with
  | JStr s => s
  | _ => repr v
  end.

(** Truth value of an object, as [if v:] and [not v] test it. *)
Definition truthy (v : json) : bool :=
  match v with
  | JNull => false
  | JBool b => b
  | JInt z => negb (z =? 0)%Z
  | JStr s => negb (s =? "")
  | JArr l => negb (Nat.eqb (List.length l) 0)
  | JObj kvs => negb (Nat.eqb (List.length kvs) 0)
  end.

(** [a == b] where [a] is a [str]: only an equal [str] compares equal. *)
Definition str_eq (a : string) (b : json) : bool :=
  match b with
  | JStr s => a =? s
  | _ => false
  end.

(** Lookup and update in a [dict]. *)
Fixpoint lookup (k : string) (kvs : list (string * json)) : option json :=
  match kvs with
  | [] => None
  | (k', v) :: rest => if k =? k' then Some v else lookup k rest
  end.

Fixpoint setitem (k : string) (v : json) (kvs : list (string * json))
  : list (string * json) :=
  match kvs with
  | [] => [(k, v)]
  | (k', v') :: rest =>
      if k =? k' then (k', v) :: rest else (k', v') :: setitem k v rest
  end.

(** [d.get(k, default)]: only a [dict] has the method. *)
Definition get (d : json) (k : string) (default : json) : outcome json :=
  match d with
  | JObj kvs =>
      match lookup k kvs with
      | Some v => Ret v
      | None => Ret default
      end
  | _ => Raise AttributeError
  end.

(** [d[k]] with a [str] key. *)
Definition getitem (d : json) (k : string) : outcome json :=
  match d with
  | JObj kvs =>
      match lookup k kvs with
      | Some v => Ret v
      | None => Raise KeyError
      end
  | _ => Raise TypeError
  end.

(** [len(v)]. *)
Definition len (v : json) : outcome Z :=
  match v with
  | JArr l => Ret (Z.of_nat (List.length l))
  | JObj kvs => Ret (Z.of_nat (List.length kvs))
  | JStr s => Ret (Z.of_nat (String.length s))
  | _ => Raise TypeError
  end.

(** The elements [for x in v] visits. *)
Definition iter (v : json) : outcome (list json) :=
  match v with
  | JArr l => Ret l
  | JObj kvs => Ret (map (fun kv => JStr (fst kv)) kvs)
  | JStr s => Ret (map (fun c => JStr (str1 c)) (chars s))
  | _ => Raise TypeError
  end.

(** [s.ljust(width)]: pad on the right, never truncate. *)
Definition ljust (s : string) (width : nat) : string :=
  s ++ replicate (width - String.length s) " ".

(** [format(v, "<width")], the f-string field [{v:<width}]: an [int] (and a
    [bool], which is one) is written in decimal; [None], a [list] and a
    [dict] refuse a format specification. *)
Definition format_left (v : json) (width : nat) : outcome string :=
  match v with
  | JStr s => Ret (ljust s width)
  | JInt z => Ret (ljust (str_of_Z z) width)
  | JBool b => Ret (ljust (if b then "1" else "0") width)
  | _ => Raise TypeError
  end.

End Py.

Export Py.

(* ################################################################# *)
(** * The process and its world *)

Module Sys.

(** An HTTP request as the script hands it to [requests]. *)
Record Request : Type := mkRequest {
  method : string;
  url : string;
  headers : list (string * string);
  json_body : option json
}.

(** A response: its status code, its body text, and what [response.json()]
    decodes the body to ([None] when decoding raises [JSONDecodeError]). *)
Record Response : Type := mkResponse {
  status_code : Z;
  text : string;
  decoded : option json
}.

(** The remote service either answers or the connection fails. *)
Inductive NetResult : Type :=
| Answer (r : Response)
| NetworkError.

(** What the process does that can be seen from outside, in order. *)
Inductive Event : Type :=
| EPrint (line : string)       (* [print(line)] on standard output *)
| EPrompt (prompt : string)    (* the prompt [input(prompt)] writes *)
| EStderr (message : string)   (* a message on standard error *)
| ERequest (r : Request).      (* an HTTP request sent *)

(** The world: the remote service (its answer may depend on the requests it
    has received so far), the environment variables, the lines waiting on
    standard input, and the events so far. *)
Record World : Type := mkWorld {
  net : list Request -> Request -> NetResult;
  environ : list (string * string);
  stdin : list string;
  trace : list Event
}.

Definition emit (e : Event) (w : World) : World :=
  mkWorld (net w) (environ w) (stdin w) (trace w ++ [e]).

Fixpoint requests (t : list Event) : list Request :=
  match t with
  | [] => []
  | ERequest r :: t' => r :: requests t'
  | _ :: t' => requests t'
  end.

Fixpoint printed (t : list Event) : list string :=
  match t with
  | [] => []
  | EPrint s :: t' => s :: printed t'
  | _ :: t' => printed t'
  end.

(** Computations of the script. *)
Definition M (A : Type) : Type := World -> outcome A * World.

Definition ret {A} (a : A) : M A := fun w => (Ret a, w).

Definition bind {A B} (m : M A) (f : A -> M B) : M B :=
  fun w =>
    match m w with
    | (Ret a, w') => f a w'
    | (Exit c, w') => (Exit c, w')
    | (Raise e, w') => (Raise e, w')
    end.

Definition lift {A} (o : outcome A) : M A := fun w => (o, w).

Definition raise {A} (e : exn) : M A := lift (Raise e).

(** [sys.exit(code)]. *)
Definition sys_exit {A} (code : Z) : M A := lift (Exit code).

(** [try: body except e: handler]. *)
Definition try_except {A} (body : M A) (e : exn) (handler : M A) : M A :=
  fun w =>
    match body w with
    | (Raise e', w') => if exn_eqb e e' then handler w' else (Raise e', w')
    | r => r
    end.

(** [print(line)]. *)
Definition print (line : string) : M unit :=
  fun w => (Ret tt, emit (EPrint line) w).

(** [input(prompt)]: writes the prompt, reads one line without its newline,
    raises [EOFError] at end of input. *)
Definition input (prompt : string) : M string :=
  fun w =>
    match stdin w with
    | [] => (Raise EOFError, emit (EPrompt prompt) w)
    | line :: rest =>
        (Ret line, mkWorld (net w) (environ w) rest (trace w ++ [EPrompt prompt]))
    end.

(** [os.environ.get(name)]. *)
Fixpoint assoc (k : string) (l : list (string * string)) : option string :=
  match l with
  | [] => None
  | (k', v) :: rest => if k =? k' then Some v else assoc k rest
  end.

Definition environ_get (name : string) : M (option string) :=
  fun w => (Ret (assoc name (environ w)), w).

(** [requests.request(...)]: the request is sent and the service answers. *)
Definition send (r : Request) : M Response :=
  fun w =>
    match net w (requests (trace w)) r with
    | Answer resp => (Ret resp, emit (ERequest r) w)
    | NetworkError => (Raise ConnectionError, emit (ERequest r) w)
    end.

(** [response.json()]. *)
Definition Response_json (r : Response) : M json :=
  match decoded r with
  | Some v => ret v
  | None => raise JSONDecodeError
  end.

(** [ArgumentParser.error(message)]: usage and message on standard error,
    then exit with status 2. *)
Definition parser_error {A} (message : string) : M A :=
  fun w => (Exit 2, emit (EStderr message) w).

(** The exit status of the process: 0 when [main] returns, the code given to
    [sys.exit], 1 for an exception nobody caught. *)
Definition exit_status {A} (o : outcome A) : Z :=
  match o with
  | Ret _ => 0
  | Exit c => c
  | Raise _ => 1
  end.

End Sys.
Export Sys.

Declare Scope py_scope.
Delimit Scope py_scope with py.
Notation "x <- m ;; k" := (bind m (fun x => k))
  (at level 61, m at next level, right associativity) : py_scope.
Notation "m ;; k" := (bind m (fun _ => k))
  (at level 61, right associativity) : py_scope.
Local Open Scope py_scope.

(* ################################################################# *)
(** * The script *)

(** Default configuration. *)
Definition DEFAULT_NAME : string := "isaac".
Definition DEFAULT_SERVER_TYPE : string := "cax41".
Definition DEFAULT_IMAGE : string := "ubuntu-24.04".
Definition DEFAULT_LOCATION : string := "nbg1".
Definition DEFAULT_SSH_KEY : string := "hosted-fornet@protonmail.com".

(** ** class HetznerCloudManager *)

Module HetznerCloudManager.

Definition API_BASE_URL : string := "https://api.hetzner.cloud/v1".

Record t : Type := mk {
  api_token : string;
  headers : list (string * string)
}.

(** [__init__]. *)
Definition init (api_token : string) : t :=
  mk api_token
     [("Authorization", "Bearer " ++ api_token);
      ("Content-Type", "application/json")].

(** The default of the parameter [success_codes]. *)
Definition default_success_codes : list Z := [200; 201]%Z.

(** [status not in success_codes]. *)
Definition not_in (status : Z) (success_codes : list Z) : bool :=
  negb (existsb (Z.eqb status) success_codes).

Definition _check_response (response : Response) (success_codes : list Z)
  : M unit :=
  if not_in (status_code response) success_codes then
    try_except
      (error_data <- Response_json response ;;
       error <- lift (get error_data "error" (JObj [])) ;;
       error_message <- lift (get error "message" (JStr "Unknown error")) ;;
       print ("Error: " ++ str error_message))
      JSONDecodeError
      (print ("Error: HTTP " ++ str_of_Z (status_code response)
                ++ " - " ++ text response)) ;;
    sys_exit 1
  else ret tt.

(** The [dict] sent as the body of the creation request. *)
Definition create_data (name server_type image location : string)
    (ssh_keys : option (list json)) : list (string * json) :=
  let data :=
    [("name", JStr name);
     ("server_type", JStr server_type);
     ("image", JStr image);
     ("location", JStr location);
     ("public_net",
       JObj [("enable_ipv4", JBool true); ("enable_ipv6", JBool true)])] in
  match ssh_keys with
  | Some (k :: ks) => setitem "ssh_keys" (JArr (k :: ks)) data
  | _ => data
  end.

Definition create_server (self : t) (name server_type image location : string)
    (ssh_keys : option (list json)) : M json :=
  let data := create_data name server_type image location ssh_keys in
  response <- send (mkRequest "POST" (API_BASE_URL ++ "/servers")
                      (headers self) (Some (JObj data))) ;;
  _check_response response default_success_codes ;;
  Response_json response.

Definition delete_server (self : t) (server_id : string) : M json :=
  response <- send (mkRequest "DELETE" (API_BASE_URL ++ "/servers/" ++ server_id)
                      (headers self) None) ;;
  _check_response response [204%Z] ;;
  ret (JObj [("status", JStr "deleted"); ("server_id", JStr server_id)]).

Definition list_servers (self : t) : M json :=
  response <- send (mkRequest "GET" (API_BASE_URL ++ "/servers")
                      (headers self) None) ;;
  _check_response response default_success_codes ;;
  Response_json response.

Definition get_ssh_keys (self : t) : M json :=
  response <- send (mkRequest "GET" (API_BASE_URL ++ "/ssh_keys")
                      (headers self) None) ;;
  _check_response response default_success_codes ;;
  Response_json response.

End HetznerCloudManager.

(** ** The parsed command line

    The attributes [argparse] stores for each subcommand. *)
Record CreateArgs : Type := mkCreateArgs {
  name : string;
  server_type : string;
  image : string;
  location : string;
  ssh_keys : list string
}.

Record DeleteArgs : Type := mkDeleteArgs {
  server_id : string;
  force : bool
}.

(** ** create_server *)

(** The inner loop [for key in all_ssh_keys], from the key [keys] starts at:
    the list of IDs after the loop, and the flag [found]. *)
Fixpoint find_ssh_key (key_name : string) (keys : list json)
    (ssh_key_ids : list json) : M (list json * bool) :=
  match keys with
  | [] => ret (ssh_key_ids, false)
  | key :: rest =>
      key_name_of <- lift (getitem key "name") ;;
      hit <- (if str_eq key_name key_name_of then ret true
              else key_id <- lift (getitem key "id") ;;
                   ret (key_name =? str key_id)) ;;
      if hit : bool then
        key_id <- lift (getitem key "id") ;;
        shown_name <- lift (getitem key "name") ;;
        shown_id <- lift (getitem key "id") ;;
        print ("  - " ++ str shown_name ++ " (ID: " ++ str shown_id ++ ")") ;;
        ret ((ssh_key_ids ++ [key_id])%list, true)
      else find_ssh_key key_name rest ssh_key_ids
  end.

(** The outer loop [for key_name in args.ssh_keys]. *)
Fixpoint resolve_ssh_keys (key_names : list string) (all_ssh_keys : json)
    (ssh_key_ids : list json) : M (list json) :=
  match key_names with
  | [] => ret ssh_key_ids
  | key_name :: rest =>
      keys <- lift (iter all_ssh_keys) ;;
      r <- find_ssh_key key_name keys ssh_key_ids ;;
      (if negb (snd r)
       then print ("Warning: SSH key '" ++ key_name ++ "' not found. Skipping.")
       else ret tt) ;;
      resolve_ssh_keys rest all_ssh_keys (fst r)
  end.

(** Lines 159-178: the IDs of the requested SSH keys. *)
Definition ssh_key_ids_of (api_manager : HetznerCloudManager.t)
    (args : CreateArgs) : M (list json) :=
  match ssh_keys args with
  | [] => ret []
  | _ :: _ =>
      ssh_keys_response <- HetznerCloudManager.get_ssh_keys api_manager ;;
      all_ssh_keys <- lift (get ssh_keys_response "ssh_keys" (JArr [])) ;;
      (if truthy all_ssh_keys
       then print "Using the following SSH keys:" else ret tt) ;;
      resolve_ssh_keys (ssh_keys args) all_ssh_keys []
  end.

Definition create_server (api_manager : HetznerCloudManager.t)
    (args : CreateArgs) : M unit :=
  ssh_key_ids <- ssh_key_ids_of api_manager args ;;
  print (nl ++ "Creating Hetzner Cloud VPS with the following configuration:") ;;
  print ("Server Name: " ++ name args) ;;
  print ("Server Type: " ++ server_type args) ;;
  print ("Image: " ++ image args) ;;
  print ("Location: " ++ location args) ;;
  response <- HetznerCloudManager.create_server api_manager
                (name args) (server_type args) (image args) (location args)
                (match ssh_key_ids with [] => None | _ => Some ssh_key_ids end) ;;
  server <- lift (get response "server" (JObj [])) ;;
  server_id <- lift (get server "id" JNull) ;;
  public_net4 <- lift (get server "public_net" (JObj [])) ;;
  ipv4 <- lift (get public_net4 "ipv4" (JObj [])) ;;
  server_ipv4 <- lift (get ipv4 "ip" (JStr "Not assigned")) ;;
  public_net6 <- lift (get server "public_net" (JObj [])) ;;
  ipv6 <- lift (get public_net6 "ipv6" (JObj [])) ;;
  server_ipv6 <- lift (get ipv6 "ip" (JStr "Not assigned")) ;;
  root_password <- lift (get response "root_password"
                           (JStr "Not provided (using SSH key)")) ;;
  print (nl ++ "Server created successfully!") ;;
  print ("Server ID: " ++ str server_id) ;;
  print ("IPv4: " ++ str server_ipv4) ;;
  print ("IPv6: " ++ str server_ipv6) ;;
  print ("Root Password: " ++ str root_password) ;;
  print (nl ++ "Your server is now being provisioned. It may take a few minutes to be fully ready.") ;;
  print ("You can connect to your server using SSH: ssh root@" ++ str server_ipv4).

(** ** delete_server *)

(** The loop [for server in servers] with its [else] branch: the ID of the
    first server called [identifier]. *)
Fixpoint find_server (identifier : string) (servers : list json) : M string :=
  match servers with
  | [] =>
      print ("Error: Server with name '" ++ identifier ++ "' not found.") ;;
      sys_exit 1
  | server :: rest =>
      server_name <- lift (getitem server "name") ;;
      if str_eq identifier server_name then
        id <- lift (getitem server "id") ;;
        let server_id := str id in
        print ("Found server '" ++ identifier ++ "' with ID: " ++ server_id) ;;
        ret server_id
      else find_server identifier rest
  end.

(** Lines 218-232: the ID to delete. *)
Definition resolve_server_id (api_manager : HetznerCloudManager.t)
    (args : DeleteArgs) : M string :=
  if negb (isdigit (server_id args)) then
    servers_response <- HetznerCloudManager.list_servers api_manager ;;
    servers <- lift (get servers_response "servers" (JArr [])) ;;
    server_list <- lift (iter servers) ;;
    find_server (server_id args) server_list
  else ret (server_id args).

(** [confirmation.lower() not in ['y', 'yes']]. *)
Definition declined (confirmation : string) : bool :=
  negb (existsb (String.eqb (lower confirmation)) ["y"; "yes"]).

(** Lines 235-239: the confirmation. *)
Definition confirm_deletion (args : DeleteArgs) (server_id : string) : M unit :=
  if negb (force args) then
    confirmation <- input ("Are you sure you want to delete server ID "
                             ++ server_id ++ "? [y/N]: ") ;;
    if declined confirmation then
      print "Deletion cancelled." ;;
      sys_exit 0
    else ret tt
  else ret tt.

(** Lines 241-243: the deletion and its report. *)
Definition delete_and_report (api_manager : HetznerCloudManager.t)
    (server_id : string) : M unit :=
  print ("Deleting server ID: " ++ server_id ++ "...") ;;
  result <- HetznerCloudManager.delete_server api_manager server_id ;;
  print ("Server " ++ server_id ++ " has been deleted.").

Definition delete_server (api_manager : HetznerCloudManager.t)
    (args : DeleteArgs) : M unit :=
  server_id <- resolve_server_id api_manager args ;;
  confirm_deletion args server_id ;;
  delete_and_report api_manager server_id.

(** ** list_servers *)

(** The body of the loop [for server in servers]: one row of the table. *)
Definition print_server_row (server : json) : M unit :=
  server_id <- lift (get server "id" (JStr "N/A")) ;;
  name <- lift (get server "name" (JStr "N/A")) ;;
  status <- lift (get server "status" (JStr "N/A")) ;;
  server_type_obj <- lift (get server "server_type" (JObj [])) ;;
  server_type <- lift (get server_type_obj "name" (JStr "N/A")) ;;
  public_net <- lift (get server "public_net" (JObj [])) ;;
  ipv4_obj <- lift (get public_net "ipv4" (JObj [])) ;;
  ipv4 <- lift (get ipv4_obj "ip" (JStr "N/A")) ;;
  datacenter <- lift (get server "datacenter" (JObj [])) ;;
  location_obj <- lift (get datacenter "location" (JObj [])) ;;
  location <- lift (get location_obj "name" (JStr "N/A")) ;;
  c1 <- lift (format_left server_id 10) ;;
  c2 <- lift (format_left name 20) ;;
  c3 <- lift (format_left status 15) ;;
  c4 <- lift (format_left server_type 10) ;;
  c5 <- lift (format_left ipv4 15) ;;
  c6 <- lift (format_left location 10) ;;
  print (c1 ++ " " ++ c2 ++ " " ++ c3 ++ " " ++ c4 ++ " " ++ c5 ++ " " ++ c6).

Fixpoint print_server_rows (servers : list json) : M unit :=
  match servers with
  | [] => ret tt
  | server :: rest => print_server_row server ;; print_server_rows rest
  end.

(** The line of column titles. *)
Definition table_header : string :=
  ljust "ID" 10 ++ " " ++ ljust "NAME" 20 ++ " " ++ ljust "STATUS" 15 ++ " "
    ++ ljust "TYPE" 10 ++ " " ++ ljust "IPv4" 15 ++ " " ++ ljust "LOCATION" 10.

Definition list_servers (api_manager : HetznerCloudManager.t) : M unit :=
  response <- HetznerCloudManager.list_servers api_manager ;;
  servers <- lift (get response "servers" (JArr [])) ;;
  if negb (truthy servers) then
    print "No servers found."
  else
    n <- lift (len servers) ;;
    print (nl ++ "Found " ++ str_of_Z n ++ " servers:" ++ nl) ;;
    print table_header ;;
    print (replicate 80 "-") ;;
    server_list <- lift (iter servers) ;;
    print_server_rows server_list.

(** ** main *)

(** What a command line that [argparse] accepts says: the global [--token],
    the subcommand, and for each option of the subcommand whether it was
    given and with what.  [-k/--ssh-keys] has [nargs="+"]: when given it
    carries at least one value. *)
Inductive CliCommand : Type :=
| CliCreate (n s i l : option string) (k : option (string * list string))
| CliDelete (id : option string) (f : bool)
| CliList.

Record Cli : Type := mkCli {
  cli_token : option string;
  cli_command : CliCommand
}.

(** The namespace [parser.parse_args()] returns: [token], and the attributes
    of the chosen subcommand, which also fix [func]. *)
Inductive Func : Type :=
| FCreate (args : CreateArgs)
| FDelete (args : DeleteArgs)
| FList.

Record Namespace : Type := mkNamespace {
  token : option string;
  func : Func
}.

Definition or_default {A} (given : option A) (default : A) : A :=
  match given with
  | Some v => v
  | None => default
  end.

(** Lines 284-320: the options with their defaults. *)
Definition parse_args (cli : Cli) : Namespace :=
  mkNamespace (cli_token cli)
    match cli_command cli with
    | CliCreate n s i l k =>
        FCreate (mkCreateArgs
                   (or_default n DEFAULT_NAME)
                   (or_default s DEFAULT_SERVER_TYPE)
                   (or_default i DEFAULT_IMAGE)
                   (or_default l DEFAULT_LOCATION)
                   (match k with
                    | Some (k1, ks) => k1 :: ks
                    | None => [DEFAULT_SSH_KEY]
                    end))
    | CliDelete id f => FDelete (mkDeleteArgs (or_default id DEFAULT_NAME) f)
    | CliList => FList
    end.

(** [a or b] on optional strings: [a] when it is a non-empty string. *)
Definition or_else (a b : option string) : option string :=
  match a with
  | Some (String _ _) => a
  | _ => b
  end.

(** [args.func(api_manager, args)]. *)
Definition call_func (api_manager : HetznerCloudManager.t) (f : Func) : M unit :=
  match f with
  | FCreate args => create_server api_manager args
  | FDelete args => delete_server api_manager args
  | FList => list_servers api_manager
  end.

(** Lines 320-329.  [not api_token] holds of [None] and of the empty string,
    the two last cases of the [match]. *)
Definition main (cli : Cli) : M unit :=
  let args := parse_args cli in
  from_env <- environ_get "HETZNER_API_TOKEN" ;;
  let api_token := or_else (token args) from_env in
  match api_token with
  | Some (String c rest) =>
      let api_manager := HetznerCloudManager.init (String c rest) in
      call_func api_manager (func args)
  | Some EmptyString | None =>
      parser_error "API token is required. Provide it with --token or set HETZNER_API_TOKEN environment variable."
  end.

(* ################################################################# *)
(** * Vocabulary of the properties *)

(** The provider's records as the data model has them: an SSH key and, for
    name resolution, a server are an integer [id] and a [name]. *)
Record Named : Type := mkNamed {
  id_of : Z;
  name_of : string
}.

(** A decoded object that carries an integer ["id"] and a string ["name"],
    whatever else it carries. *)
Definition named_view (j : json) : option Named :=
  match j with
  | JObj kvs =>
      match lookup "id" kvs, lookup "name" kvs with
      | Some (JInt i), Some (JStr n) => Some (mkNamed i n)
      | _, _ => None
      end
  | _ => None
  end.

(** The first key a reference designates: by name, or by stringified ID. *)
Definition key_matches (ref : string) (k : Named) : bool :=
  (ref =? name_of k) || (ref =? str_of_Z (id_of k)).

Definition first_key (ref : string) (keys : list Named) : option Named :=
  find (key_matches ref) keys.

(** The IDs the references resolve to, and the lines resolution prints. *)
Definition resolved_ids (refs : list string) (keys : list Named) : list Z :=
  flat_map (fun ref => match first_key ref keys with
                       | Some k => [id_of k]
                       | None => []
                       end) refs.

Definition resolution_line (keys : list Named) (ref : string) : string :=
  match first_key ref keys with
  | Some k => "  - " ++ name_of k ++ " (ID: " ++ str_of_Z (id_of k) ++ ")"
  | None => "Warning: SSH key '" ++ ref ++ "' not found. Skipping."
  end.

(** The references that designate a key, each with its key, in the order of
    the references. *)
Definition matched (refs : list string) (keys : list Named)
  : list (string * Named) :=
  flat_map (fun ref => match first_key ref keys with
                       | Some k => [(ref, k)]
                       | None => []
                       end) refs.

Definition has_key (keys : list Named) (ref : string) : bool :=
  match first_key ref keys with
  | Some _ => true
  | None => false
  end.

(** The first server with a given name. *)
Definition first_server (identifier : string) (servers : list Named)
  : option Named :=
  find (fun s => identifier =? name_of s) servers.

(** A server as the listing shows it: six fields, each of which may be
    missing. *)
Record ServerRow : Type := mkServerRow {
  row_id : option Z;
  row_name : option string;
  row_status : option string;
  row_type : option string;
  row_ipv4 : option string;
  row_location : option string
}.

Definition as_int (j : json) : option Z :=
  match j with
  | JInt z => Some z
  | _ => None
  end.

Definition as_str (j : json) : option string :=
  match j with
  | JStr s => Some s
  | _ => None
  end.

(** A field of an object that is absent, or present with a value [view]
    reads. *)
Definition opt_field {A} (kvs : list (string * json)) (k : string)
    (view : json -> option A) : option (option A) :=
  match lookup k kvs with
  | None => Some None
  | Some v =>
      match view v with
      | Some a => Some (Some a)
      | None => None
      end
  end.

(** A nested object, an absent one counting as empty. *)
Definition nested (kvs : list (string * json)) (k : string)
  : option (list (string * json)) :=
  match lookup k kvs with
  | None => Some []
  | Some (JObj o) => Some o
  | Some _ => None
  end.

Definition and_then {A B} (o : option A) (f : A -> option B) : option B :=
  match o with
  | Some a => f a
  | None => None
  end.

(** The row a decoded server stands for, when each field it has is of the
    expected kind. *)
Definition row_view (j : json) : option ServerRow :=
  match j with
  | JObj kvs =>
      and_then (opt_field kvs "id" as_int) (fun id =>
      and_then (opt_field kvs "name" as_str) (fun name =>
      and_then (opt_field kvs "status" as_str) (fun status =>
      and_then (nested kvs "server_type") (fun server_type =>
      and_then (opt_field server_type "name" as_str) (fun type_name =>
      and_then (nested kvs "public_net") (fun public_net =>
      and_then (nested public_net "ipv4") (fun ipv4 =>
      and_then (opt_field ipv4 "ip" as_str) (fun ip =>
      and_then (nested kvs "datacenter") (fun datacenter =>
      and_then (nested datacenter "location") (fun location =>
      and_then (opt_field location "name" as_str) (fun location_name =>
      Some (mkServerRow id name status type_name ip location_name))))))))))))
  | _ => None
  end.

(** A column of the table: the field, or [N/A] when it is missing, padded on
    the right to the width of the column. *)
Definition column (field : option string) (width : nat) : string :=
  ljust (or_default field "N/A") width.

(** A line of the table as the specification describes it. *)
Definition spec_row (r : ServerRow) : string :=
  column (option_map str_of_Z (row_id r)) 10 ++ " "
    ++ column (row_name r) 20 ++ " "
    ++ column (row_status r) 15 ++ " "
    ++ column (row_type r) 10 ++ " "
    ++ column (row_ipv4 r) 15 ++ " "
    ++ column (row_location r) 10.

(** The lines of the deletion subcommand. *)
Definition confirmation_prompt (server_id : string) : string :=
  "Are you sure you want to delete server ID " ++ server_id ++ "? [y/N]: ".

Definition deleting_line (server_id : string) : string :=
  "Deleting server ID: " ++ server_id ++ "...".

Definition deleted_line (server_id : string) : string :=
  "Server " ++ server_id ++ " has been deleted.".

(** The message of the usage error for a missing token. *)
Definition token_required : string :=
  "API token is required. Provide it with --token or set HETZNER_API_TOKEN environment variable.".

(** The four requests of the API client. *)
Definition ssh_keys_request (self : HetznerCloudManager.t) : Request :=
  mkRequest "GET" "https://api.hetzner.cloud/v1/ssh_keys"
    (HetznerCloudManager.headers self) None.

Definition servers_request (self : HetznerCloudManager.t) : Request :=
  mkRequest "GET" "https://api.hetzner.cloud/v1/servers"
    (HetznerCloudManager.headers self) None.

Definition deletion_request (self : HetznerCloudManager.t) (server_id : string)
  : Request :=
  mkRequest "DELETE" ("https://api.hetzner.cloud/v1/servers/" ++ server_id)
    (HetznerCloudManager.headers self) None.

Definition creation_request (self : HetznerCloudManager.t)
    (payload : list (string * json)) : Request :=
  mkRequest "POST" "https://api.hetzner.cloud/v1/servers"
    (HetznerCloudManager.headers self) (Some (JObj payload)).

(** The creation payload the specification describes: the four supplied
    fields, both public addresses enabled, and the key IDs when there are
    some. *)
Definition spec_payload (name server_type image location : string)
    (ids : list json) : list (string * json) :=
  ([("name", JStr name);
    ("server_type", JStr server_type);
    ("image", JStr image);
    ("location", JStr location);
    ("public_net",
      JObj [("enable_ipv4", JBool true); ("enable_ipv6", JBool true)])]
   ++ match ids with
      | [] => []
      | _ :: _ => [("ssh_keys", JArr ids)]
      end)%list.

(** The four operations of the API client, the request each sends and the
    status codes each accepts. *)
Inductive Operation : Type :=
| CreateServer (name server_type image location : string)
    (ssh_keys : option (list json))
| DeleteServer (server_id : string)
| ListServers
| ListSshKeys.

Definition perform (self : HetznerCloudManager.t) (op : Operation) : M json :=
  match op with
  | CreateServer n s i l k => HetznerCloudManager.create_server self n s i l k
  | DeleteServer server_id => HetznerCloudManager.delete_server self server_id
  | ListServers => HetznerCloudManager.list_servers self
  | ListSshKeys => HetznerCloudManager.get_ssh_keys self
  end.

Definition request_of (self : HetznerCloudManager.t) (op : Operation) : Request :=
  match op with
  | CreateServer n s i l k =>
      creation_request self (HetznerCloudManager.create_data n s i l k)
  | DeleteServer server_id => deletion_request self server_id
  | ListServers => servers_request self
  | ListSshKeys => ssh_keys_request self
  end.

Definition success_codes_of (op : Operation) : list Z :=
  match op with
  | DeleteServer _ => [204%Z]
  | _ => [200%Z; 201%Z]
  end.

(** What an operation returns once its response is accepted. *)
Definition result_of (op : Operation) (resp : Response) : outcome json :=
  match op with
  | DeleteServer server_id =>
      Ret (JObj [("status", JStr "deleted"); ("server_id", JStr server_id)])
  | _ =>
      match decoded resp with
      | Some v => Ret v
      | None => Raise JSONDecodeError
      end
  end.

(** The service answers [resp] to the request [r] sent from the world [w]. *)
Definition answers (w : World) (r : Request) (resp : Response) : Prop :=
  net w (requests (trace w)) r = Answer resp.

(** A world after more events. *)
Definition after (w : World) (events : list Event) : World :=
  mkWorld (net w) (environ w) (stdin w) (trace w ++ events)%list.

(** [quiet m]: running [m] sends no request. *)
Definition quiet {A} (m : M A) : Prop :=
  forall w, requests (trace (snd (m w))) = requests (trace w).

(** What a failed call reports, read off the response: the raw status and
    body when the body is not JSON; the nested message, or a placeholder,
    when the body is an object whose ["error"] is absent or an object; and
    nothing (an [AttributeError] ends the process) when the body or its
    ["error"] is JSON of another shape. *)
Definition error_report (r : Response) : option string :=
  match decoded r with
  | None =>
      Some ("Error: HTTP " ++ str_of_Z (status_code r) ++ " - " ++ text r)
  | Some (JObj kvs) =>
      match lookup "error" kvs with
      | None => Some "Error: Unknown error"
      | Some (JObj e) =>
          Some ("Error: "
                  ++ str (or_default (lookup "message" e) (JStr "Unknown error")))
      | Some _ => None
      end
  | Some _ => None
  end.

Definition error_outcome {A} (r : Response) : outcome A :=
  match error_report r with
  | Some _ => Exit 1
  | None => Raise AttributeError
  end.

Definition error_events (r : Response) : list Event :=
  match error_report r with
  | Some line => [EPrint line]
  | None => []
  end.

(** ** Vocabulary of the further properties *)

(** The events other than the prompt of a confirmation. *)
Definition no_prompt (e : Event) : Prop :=
  match e with
  | EPrompt _ => False
  | EPrint _ | EStderr _ | ERequest _ => True
  end.

(** [w'] is [w] after more events, all of them [ok]: the service, the
    environment and the pending input are the same. *)
Definition extends_by (ok : Event -> Prop) (w w' : World) : Prop :=
  net w' = net w /\ environ w' = environ w /\ stdin w' = stdin w /\
  exists events, trace w' = (trace w ++ events)%list /\ Forall ok events.

Definition only_emits (ok : Event -> Prop) {A} (m : M A) : Prop :=
  forall w, extends_by ok w (snd (m w)).

(** The ["name"] of a listed entry, when it is an object that has one. *)
Definition name_field (j : json) : option json :=
  match j with
  | JObj kvs => lookup "name" kvs
  | _ => None
  end.

(** An entry the search for [identifier] passes over: it has a name, which is
    not the identifier. *)
Definition passed_over (identifier : string) (j : json) : Prop :=
  exists n, name_field j = Some n /\ str_eq identifier n = false.

(** The ten lines that confirm a deletion. *)
Definition confirmations : list string :=
  ["y"; "Y"; "yes"; "yeS"; "yEs"; "yES"; "Yes"; "YeS"; "YEs"; "YES"].

(** The width a field takes in its column. *)
Definition column_width (field : option string) (width : nat) : nat :=
  Nat.max (String.length (or_default field "N/A")) width.

(* ################################################################# *)
(** * Sample worlds *)

(** JSON text needs double quotes. *)
Definition quoted (s : string) : string := str1 dquote ++ s ++ str1 dquote.

(** The provider's answer for a server that does not exist. *)
Definition not_found_response : Response :=
  mkResponse 404
    ("{" ++ quoted "error" ++ ": {" ++ quoted "message" ++ ": "
       ++ quoted "server not found" ++ "}}")
    (Some (JObj [("error", JObj [("message", JStr "server not found")])])).

(** An answer with no content, as a successful deletion gets. *)
Definition no_content_response : Response := mkResponse 204 "" None.

(** An answer [200] carrying the object [body]; the text is not read on this
    path. *)
Definition ok_response (body : json) : Response :=
  mkResponse 200 (repr body) (Some body).

(** A service that gives one answer to [GET], one to [POST] and one to
    [DELETE]; a process that starts with the given environment and input. *)
Definition sample_world (on_get on_post on_delete : Response)
    (env : list (string * string)) (input : list string) : World :=
  mkWorld (fun _ r => if method r =? "GET" then Answer on_get
                      else if method r =? "POST" then Answer on_post
                      else Answer on_delete)
          env input [].

(** Two SSH keys in the account, and the answer to a creation. *)
Definition sample_keys_body : json :=
  JObj [("ssh_keys",
         JArr [JObj [("id", JInt 1); ("name", JStr "a")];
               JObj [("id", JInt 2); ("name", JStr "b")]])].

Definition sample_keys : list Named := [mkNamed 1 "a"; mkNamed 2 "b"].

Definition created_response : Response :=
  let body :=
    JObj [("server",
           JObj [("id", JInt 7);
                 ("public_net",
                  JObj [("ipv4", JObj [("ip", JStr "203.0.113.5")])])])] in
  mkResponse 201 (repr body) (Some body).

Definition create_world : World :=
  sample_world (ok_response sample_keys_body) created_response
    no_content_response [] [].

Definition sample_create_args (refs : list string) : CreateArgs :=
  mkCreateArgs "isaac" "cax41" "ubuntu-24.04" "nbg1" refs.

(** One server in the account, called [isaac]. *)
Definition sample_servers_body : json :=
  JObj [("servers", JArr [JObj [("id", JInt 123); ("name", JStr "isaac")]])].

Definition delete_world (on_delete : Response) (input : list string) : World :=
  sample_world (ok_response sample_servers_body) created_response on_delete
    [] input.

(** A listing of two servers, the second with nothing but a name. *)
Definition sample_listing_body : json :=
  JObj [("servers",
         JArr [JObj [("id", JInt 123);
                     ("name", JStr "isaac");
                     ("status", JStr "running");
                     ("server_type", JObj [("name", JStr "cax41")]);
                     ("public_net",
                      JObj [("ipv4", JObj [("ip", JStr "203.0.113.5")])]);
                     ("datacenter",
                      JObj [("location", JObj [("name", JStr "nbg1")])])];
               JObj [("name", JStr "spare")]])].

Definition sample_rows : list ServerRow :=
  [mkServerRow (Some 123%Z) (Some "isaac") (Some "running") (Some "cax41")
     (Some "203.0.113.5") (Some "nbg1");
   mkServerRow None (Some "spare") None None None None].

Definition listing_world (body : json) : World :=
  sample_world (ok_response body) created_response no_content_response [] [].

Definition sample_manager : HetznerCloudManager.t :=
  HetznerCloudManager.init "secret".

(* ################################################################# *)
(** * Basic facts *)

Lemma after_nil (w : World) : after w [] = w.
Proof. destruct w; unfold after; simpl. now rewrite app_nil_r. Qed.

Lemma after_after (w : World) (e1 e2 : list Event) :
  after (after w e1) e2 = after w (e1 ++ e2)%list.
Proof. unfold after; simpl. now rewrite app_assoc. Qed.

Lemma emit_after (w : World) (e : Event) : emit e w = after w [e].
Proof. reflexivity. Qed.

Lemma requests_app (t1 t2 : list Event) :
  requests (t1 ++ t2)%list = (requests t1 ++ requests t2)%list.
Proof.
  induction t1 as [|e t1 IH]; simpl; [reflexivity|].
  destruct e; simpl; now rewrite IH.
Qed.

Lemma printed_app (t1 t2 : list Event) :
  printed (t1 ++ t2)%list = (printed t1 ++ printed t2)%list.
Proof.
  induction t1 as [|e t1 IH]; simpl; [reflexivity|].
  destruct e; simpl; now rewrite IH.
Qed.

Lemma requests_map_EPrint (l : list string) : requests (map EPrint l) = [].
Proof. induction l; simpl; auto. Qed.

Lemma printed_map_EPrint (l : list string) : printed (map EPrint l) = l.
Proof. induction l; simpl; congruence. Qed.

Lemma bind_Ret {A B} (m : M A) (f : A -> M B) (w w' : World) (a : A) :
  m w = (Ret a, w') -> bind m f w = f a w'.
Proof. unfold bind; now intros ->. Qed.

Lemma bind_Exit {A B} (m : M A) (f : A -> M B) (w w' : World) (c : Z) :
  m w = (Exit c, w') -> bind m f w = (Exit c, w').
Proof. unfold bind; now intros ->. Qed.

Lemma bind_Raise {A B} (m : M A) (f : A -> M B) (w w' : World) (e : exn) :
  m w = (Raise e, w') -> bind m f w = (Raise e, w').
Proof. unfold bind; now intros ->. Qed.

Lemma print_after (line : string) (w : World) :
  print line w = (Ret tt, after w [EPrint line]).
Proof. reflexivity. Qed.

(** Run the [print] at the head of the computation in the goal. *)
Ltac run_print :=
  rewrite (bind_Ret _ _ _ _ _ (print_after _ _)), ?after_after.

Lemma send_answer (r : Request) (resp : Response) (w : World) :
  answers w r resp -> send r w = (Ret resp, after w [ERequest r]).
Proof. unfold answers, send; now intros ->. Qed.

Lemma send_network_error (r : Request) (w : World) :
  net w (requests (trace w)) r = NetworkError ->
  send r w = (Raise ConnectionError, after w [ERequest r]).
Proof. unfold send; now intros ->. Qed.

(** ** [_check_response] *)

Lemma check_response_ok (resp : Response) (codes : list Z) (w : World) :
  HetznerCloudManager.not_in (status_code resp) codes = false ->
  HetznerCloudManager._check_response resp codes w = (Ret tt, w).
Proof. unfold HetznerCloudManager._check_response; now intros ->. Qed.

Lemma check_response_fail (resp : Response) (codes : list Z) (w : World) :
  HetznerCloudManager.not_in (status_code resp) codes = true ->
  HetznerCloudManager._check_response resp codes w
  = (error_outcome resp, after w (error_events resp)).
Proof.
  unfold HetznerCloudManager._check_response; intros ->.
  unfold error_outcome, error_events, error_report, bind, try_except,
    Response_json, raise, lift, ret.
  destruct (decoded resp) as [[| | | | |kvs]|]; simpl;
    try (now rewrite after_nil); try reflexivity.
  unfold get.
  destruct (lookup "error" kvs) as [[| | | | |e]|]; simpl;
    try (now rewrite after_nil); try reflexivity.
  destruct (lookup "message" e); reflexivity.
Qed.

Lemma bind_error_outcome {A B} (m : M A) (f : A -> M B) (w w' : World)
    (resp : Response) :
  m w = (error_outcome resp, w') -> bind m f w = (error_outcome resp, w').
Proof.
  unfold error_outcome. destruct (error_report resp).
  - apply bind_Exit.
  - apply bind_Raise.
Qed.

Lemma exit_status_error_outcome {A} (resp : Response) :
  exit_status (@error_outcome A resp) = 1%Z.
Proof. unfold error_outcome; now destruct (error_report resp). Qed.

Lemma requests_error_events (resp : Response) :
  requests (error_events resp) = [].
Proof. unfold error_events; now destruct (error_report resp). Qed.

(** ** The operations of the client *)

Lemma perform_fail (self : HetznerCloudManager.t) (op : Operation)
    (resp : Response) (w : World) :
  answers w (request_of self op) resp ->
  HetznerCloudManager.not_in (status_code resp) (success_codes_of op) = true ->
  perform self op w
  = (error_outcome resp,
     after w (ERequest (request_of self op) :: error_events resp)).
Proof.
  intros Hnet Hcode.
  destruct op; simpl in *;
    unfold HetznerCloudManager.create_server, HetznerCloudManager.delete_server,
      HetznerCloudManager.list_servers, HetznerCloudManager.get_ssh_keys;
    (erewrite bind_Ret by (apply send_answer; exact Hnet));
    unfold bind at 1;
    rewrite (check_response_fail _ _ _ Hcode), after_after; simpl;
    unfold error_outcome; now destruct (error_report resp).
Qed.

Lemma perform_ok (self : HetznerCloudManager.t) (op : Operation)
    (resp : Response) (w : World) :
  answers w (request_of self op) resp ->
  HetznerCloudManager.not_in (status_code resp) (success_codes_of op) = false ->
  perform self op w
  = (result_of op resp, after w [ERequest (request_of self op)]).
Proof.
  intros Hnet Hcode.
  destruct op; simpl in *;
    unfold HetznerCloudManager.create_server, HetznerCloudManager.delete_server,
      HetznerCloudManager.list_servers, HetznerCloudManager.get_ssh_keys;
    (erewrite bind_Ret by (apply send_answer; exact Hnet));
    unfold bind at 1;
    rewrite (check_response_ok _ _ _ Hcode);
    unfold Response_json, ret, raise, lift;
    try reflexivity; now destruct (decoded resp).
Qed.

Lemma perform_network_error (self : HetznerCloudManager.t) (op : Operation)
    (w : World) :
  net w (requests (trace w)) (request_of self op) = NetworkError ->
  perform self op w
  = (Raise ConnectionError, after w [ERequest (request_of self op)]).
Proof.
  intros Hnet.
  destruct op; simpl in *;
    unfold HetznerCloudManager.create_server, HetznerCloudManager.delete_server,
      HetznerCloudManager.list_servers, HetznerCloudManager.get_ssh_keys;
    (erewrite bind_Raise by (apply send_network_error; exact Hnet));
    reflexivity.
Qed.

(** Every operation sends exactly its one request, whatever comes back. *)
Lemma perform_requests (self : HetznerCloudManager.t) (op : Operation)
    (w : World) :
  requests (trace (snd (perform self op w)))
  = (requests (trace w) ++ [request_of self op])%list.
Proof.
  destruct (net w (requests (trace w)) (request_of self op)) as [resp|] eqn:Hnet.
  - destruct (HetznerCloudManager.not_in (status_code resp) (success_codes_of op))
      eqn:Hcode.
    + rewrite (perform_fail _ _ _ _ Hnet Hcode); simpl.
      rewrite requests_app; simpl. now rewrite requests_error_events.
    + rewrite (perform_ok _ _ _ _ Hnet Hcode); simpl.
      now rewrite requests_app.
  - rewrite (perform_network_error _ _ _ Hnet); simpl.
    now rewrite requests_app.
Qed.

Lemma not_in_true (status : Z) (codes : list Z) :
  HetznerCloudManager.not_in status codes = true <-> ~ In status codes.
Proof.
  unfold HetznerCloudManager.not_in. rewrite negb_true_iff.
  split.
  - intros H Hin. apply not_true_iff_false in H. apply H.
    apply existsb_exists. exists status. split; [exact Hin | apply Z.eqb_refl].
  - intros H. apply not_true_iff_false. intros Hex.
    apply existsb_exists in Hex as (c & Hin & Heq).
    apply Z.eqb_eq in Heq. subst c. contradiction.
Qed.

Lemma not_in_false (status : Z) (codes : list Z) :
  HetznerCloudManager.not_in status codes = false <-> In status codes.
Proof.
  unfold HetznerCloudManager.not_in. rewrite negb_false_iff, existsb_exists.
  split.
  - intros (c & Hin & Heq). apply Z.eqb_eq in Heq. now subst c.
  - intros Hin. exists status. split; [exact Hin | apply Z.eqb_refl].
Qed.

(* ################################################################# *)
(** * Error handling of the API client *)

(** What a refused answer does, in full.  For every operation of the API
    client, a response whose status is not one of the operation's success
    codes ends the process with a non-zero exit status, after the single
    request of the operation: nothing is sent again.  The client decodes the
    body as JSON.  When decoding fails it prints the raw status code and the
    body text.  When the body decodes to an object whose ["error"] is an
    object with a ["message"], it prints that message.  In every case what is
    printed is [error_report], which is nothing when the body is JSON of
    another shape. *)
Theorem refused_answer_outcome :
  forall (self : HetznerCloudManager.t) (op : Operation) (w : World)
         (resp : Response),
    answers w (request_of self op) resp ->
    ~ In (status_code resp) (success_codes_of op) ->
    exists (o : outcome json) (w' : World),
      perform self op w = (o, w') /\
      exit_status o <> 0%Z /\
      requests (trace w') = (requests (trace w) ++ [request_of self op])%list /\
      (decoded resp = None ->
       o = Exit 1 /\
       printed (trace w')
       = (printed (trace w)
            ++ [("Error: HTTP " ++ str_of_Z (status_code resp) ++ " - "
                   ++ text resp)%string])%list) /\
      (forall kvs e m,
          decoded resp = Some (JObj kvs) ->
          lookup "error" kvs = Some (JObj e) ->
          lookup "message" e = Some m ->
          o = Exit 1 /\
          printed (trace w')
          = (printed (trace w) ++ [("Error: " ++ str m)%string])%list) /\
      printed (trace w')
      = (printed (trace w)
           ++ match error_report resp with Some line => [line] | None => [] end)%list.
Proof.
  intros self op w resp Hnet Hcode.
  apply not_in_true in Hcode.
  exists (error_outcome resp),
    (after w (ERequest (request_of self op) :: error_events resp)).
  split; [now apply perform_fail|].
  split; [rewrite exit_status_error_outcome; discriminate|].
  split.
  { simpl. rewrite requests_app. simpl. now rewrite requests_error_events. }
  simpl. rewrite printed_app. simpl.
  unfold error_outcome, error_events, error_report.
  split; [|split].
  - intros ->. split; reflexivity.
  - intros kvs e m -> -> ->. split; reflexivity.
  - now destruct (decoded resp) as [[| | | | |kvs]|];
      try destruct (lookup "error" kvs) as [[| | | | |e]|].
Qed.

Lemma refused_answer_outcome_witness :
  let w := sample_world not_found_response not_found_response
             not_found_response [] [] in
  exists (o : outcome json) (w' : World),
    perform sample_manager (DeleteServer "42") w = (o, w') /\
    exit_status o <> 0%Z /\
    requests (trace w')
    = (requests (trace w) ++ [request_of sample_manager (DeleteServer "42")])%list /\
    (decoded not_found_response = None ->
     o = Exit 1 /\
     printed (trace w')
     = (printed (trace w)
          ++ [("Error: HTTP " ++ str_of_Z (status_code not_found_response)
                 ++ " - " ++ text not_found_response)%string])%list) /\
    (forall kvs e m,
        decoded not_found_response = Some (JObj kvs) ->
        lookup "error" kvs = Some (JObj e) ->
        lookup "message" e = Some m ->
        o = Exit 1 /\
        printed (trace w')
        = (printed (trace w) ++ [("Error: " ++ str m)%string])%list) /\
    printed (trace w')
    = (printed (trace w)
         ++ match error_report not_found_response with
            | Some line => [line]
            | None => []
            end)%list.
Proof.
  intro w.
  apply (refused_answer_outcome sample_manager (DeleteServer "42") w
           not_found_response).
  - reflexivity.
  - simpl. intros [H|[]]. discriminate H.
Defined.

(** C8, where the script falls short of it.  A refused answer (status 500)
    whose body is the JSON list [[]]: decoding succeeds, [error_data.get]
    raises [AttributeError], which the [except json.JSONDecodeError] clause
    does not catch.  Neither the structured message nor the raw status and
    body are printed, and [sys.exit(1)], which the docstring of
    [_check_response] promises for every failed request, is not reached: the
    process ends on the uncaught exception.  The same holds when ["error"] is
    a string. *)
Lemma C8_refused_answer_with_json_list :
  let resp := mkResponse 500 "[]" (Some (JArr [])) in
  let w := sample_world resp resp resp [] [] in
  HetznerCloudManager._check_response resp [200%Z; 201%Z] w
  = (Raise AttributeError, w) /\
  (forall op : Operation,
      perform sample_manager op w
      = (Raise AttributeError,
         after w [ERequest (request_of sample_manager op)])) /\
  printed (trace (snd (HetznerCloudManager._check_response resp
                         [200%Z; 201%Z] w))) = [] /\
  (let resp' :=
     mkResponse 500 "" (Some (JObj [("error", JStr "boom")])) in
   HetznerCloudManager._check_response resp' [200%Z; 201%Z] w
   = (Raise AttributeError, w)).
Proof.
  intros resp w. split; [reflexivity|]. split; [|split; reflexivity].
  intros op.
  assert (Hnet : answers w (request_of sample_manager op) resp).
  { unfold answers. simpl. destruct op; reflexivity. }
  assert (Hcode : HetznerCloudManager.not_in (status_code resp)
                    (success_codes_of op) = true) by now destruct op.
  rewrite (perform_fail sample_manager op resp w Hnet Hcode).
  reflexivity.
Qed.

(* ################################################################# *)
(** * Computations that send nothing *)

Lemma quiet_ret {A} (a : A) : quiet (ret a).
Proof. intro w; reflexivity. Qed.

Lemma quiet_lift {A} (o : outcome A) : quiet (lift o).
Proof. intro w; reflexivity. Qed.

Lemma quiet_print (line : string) : quiet (print line).
Proof. intro w; simpl. rewrite requests_app; simpl. apply app_nil_r. Qed.

Lemma quiet_sys_exit {A} (c : Z) : quiet (@sys_exit A c).
Proof. intro w; reflexivity. Qed.

Lemma quiet_input (prompt : string) : quiet (input prompt).
Proof.
  intro w; unfold input. destruct (stdin w); simpl;
    rewrite requests_app; simpl; apply app_nil_r.
Qed.

Lemma quiet_bind {A B} (m : M A) (f : A -> M B) :
  quiet m -> (forall a, quiet (f a)) -> quiet (bind m f).
Proof.
  intros Hm Hf w. unfold bind. specialize (Hm w).
  destruct (m w) as [[a|c|e] w1]; simpl in *; [|assumption|assumption].
  now rewrite Hf.
Qed.

Lemma quiet_if {A} (b : bool) (m1 m2 : M A) :
  quiet m1 -> quiet m2 -> quiet (if b then m1 else m2).
Proof. now destruct b. Qed.

Create HintDb quiet.
#[local] Hint Resolve quiet_ret quiet_lift quiet_print quiet_sys_exit
  quiet_input quiet_bind quiet_if : quiet.

(** A chain of binds whose steps are quiet one by one. *)
Ltac quiet_chain :=
  repeat (apply quiet_bind; [auto with quiet|]; intros ?); auto with quiet.

(** After a computation, a quiet continuation changes nothing to what was
    sent. *)
Lemma requests_bind_quiet {A B} (m : M A) (f : A -> M B) (w : World) :
  (forall a, quiet (f a)) ->
  requests (trace (snd (bind m f w))) = requests (trace (snd (m w))).
Proof.
  intros Hf. unfold bind.
  destruct (m w) as [[a|c|e] w1]; simpl; [apply Hf|reflexivity|reflexivity].
Qed.

Lemma quiet_find_ssh_key (ref : string) (keys acc : list json) :
  quiet (find_ssh_key ref keys acc).
Proof.
  induction keys as [|key rest IH]; simpl; [auto with quiet|].
  apply quiet_bind; [auto with quiet|]; intros n.
  apply quiet_bind.
  { destruct (str_eq ref n); auto with quiet. }
  intros [|]; [|exact IH].
  quiet_chain.
Qed.

Lemma quiet_resolve_ssh_keys (refs : list string) (all : json) (acc : list json) :
  quiet (resolve_ssh_keys refs all acc).
Proof.
  revert acc; induction refs as [|ref rest IH]; intros acc; simpl;
    [auto with quiet|].
  apply quiet_bind; [auto with quiet|]; intros keys.
  apply quiet_bind; [apply quiet_find_ssh_key|]; intros r.
  apply quiet_bind; [destruct (negb (snd r)); auto with quiet|]; intros _.
  apply IH.
Qed.

Lemma quiet_find_server (identifier : string) (servers : list json) :
  quiet (find_server identifier servers).
Proof.
  induction servers as [|server rest IH]; simpl; [auto with quiet|].
  apply quiet_bind; [auto with quiet|]; intros n.
  destruct (str_eq identifier n); [|exact IH].
  auto with quiet.
Qed.

Lemma quiet_confirm_deletion (args : DeleteArgs) (server_id : string) :
  quiet (confirm_deletion args server_id).
Proof.
  unfold confirm_deletion. apply quiet_if; [|auto with quiet].
  apply quiet_bind; [auto with quiet|]; intros c.
  apply quiet_if; auto with quiet.
Qed.

Lemma quiet_print_server_rows (servers : list json) :
  quiet (print_server_rows servers).
Proof.
  induction servers as [|server rest IH]; simpl; [auto with quiet|].
  apply quiet_bind; [|intros _; exact IH].
  unfold print_server_row.
  quiet_chain.
Qed.

(* ################################################################# *)
(** * Creation *)

Lemma create_data_spec (n s i l : string) (ids : list json) :
  HetznerCloudManager.create_data n s i l
    (match ids with [] => None | _ :: _ => Some ids end)
  = spec_payload n s i l ids.
Proof. destruct ids; reflexivity. Qed.

Lemma create_data_given (n s i l : string) (given : option (list json)) :
  HetznerCloudManager.create_data n s i l given
  = spec_payload n s i l (match given with Some ids => ids | None => [] end).
Proof. now destruct given as [[|]|]. Qed.

Lemma lookup_ssh_keys_payload (n s i l : string) (ids : list json) :
  lookup "ssh_keys" (spec_payload n s i l ids)
  = match ids with [] => None | _ :: _ => Some (JArr ids) end.
Proof. destruct ids; reflexivity. Qed.

(** What the subcommand sends once the key IDs are known. *)
Lemma create_server_requests (api_manager : HetznerCloudManager.t)
    (args : CreateArgs) (ids : list json) (w0 w : World) :
  ssh_key_ids_of api_manager args w0 = (Ret ids, w) ->
  requests (trace (snd (create_server api_manager args w0)))
  = (requests (trace w)
       ++ [creation_request api_manager
             (spec_payload (name args) (server_type args) (image args)
                (location args) ids)])%list.
Proof.
  intros Hids. unfold create_server.
  rewrite (bind_Ret _ _ _ _ _ Hids).
  do 5 run_print.
  rewrite requests_bind_quiet.
  - pose proof (perform_requests api_manager
                  (CreateServer (name args) (server_type args) (image args)
                     (location args)
                     (match ids with [] => None | _ :: _ => Some ids end))) as H.
    simpl in H. rewrite H. simpl.
    rewrite requests_app, create_data_spec. simpl. now rewrite app_nil_r.
  - intros response.
    quiet_chain.
Qed.

(** C1. The creation request carries exactly the supplied name, server type,
    image and location, with public IPv4 and IPv6 enabled, and a field
    ["ssh_keys"] exactly when the list of key IDs it is given is not empty.
    The API client sends that one request whatever list it is given ([None]
    counting as empty), and so does the subcommand with the IDs it has
    resolved. *)
Theorem C1_creation_payload :
  forall (self : HetznerCloudManager.t) (args : CreateArgs)
         (given : option (list json)) (w : World),
    let ids := match given with Some l => l | None => [] end in
    let payload :=
      ([("name", JStr (name args));
        ("server_type", JStr (server_type args));
        ("image", JStr (image args));
        ("location", JStr (location args));
        ("public_net",
          JObj [("enable_ipv4", JBool true); ("enable_ipv6", JBool true)])]
       ++ match ids with
          | [] => []
          | _ :: _ => [("ssh_keys", JArr ids)]
          end)%list in
    let request :=
      mkRequest "POST" "https://api.hetzner.cloud/v1/servers"
        (HetznerCloudManager.headers self) (Some (JObj payload)) in
    requests (trace (snd (HetznerCloudManager.create_server self
                            (name args) (server_type args) (image args)
                            (location args) given w)))
    = (requests (trace w) ++ [request])%list /\
    (lookup "ssh_keys" payload <> None <-> ids <> []) /\
    (forall w0 : World,
        ssh_key_ids_of self args w0 = (Ret ids, w) ->
        requests (trace (snd (create_server self args w0)))
        = (requests (trace w) ++ [request])%list).
Proof.
  intros self args given w ids payload request.
  split; [|split].
  - pose proof (perform_requests self
                  (CreateServer (name args) (server_type args) (image args)
                     (location args) given) w) as H.
    simpl in H. rewrite H, create_data_given. reflexivity.
  - subst payload. destruct ids; simpl; split; congruence.
  - intros w0 Hids. now apply create_server_requests.
Qed.

Lemma C1_creation_payload_witness :
  let args := sample_create_args ["a"; "3"] in
  ssh_key_ids_of sample_manager args create_world
  = (Ret [JInt 1], snd (ssh_key_ids_of sample_manager args create_world)) /\
  requests (trace (snd (create_server sample_manager args create_world)))
  = (requests (trace (snd (ssh_key_ids_of sample_manager args create_world)))
       ++ [mkRequest "POST" "https://api.hetzner.cloud/v1/servers"
             (HetznerCloudManager.headers sample_manager)
             (Some (JObj [("name", JStr "isaac");
                          ("server_type", JStr "cax41");
                          ("image", JStr "ubuntu-24.04");
                          ("location", JStr "nbg1");
                          ("public_net",
                           JObj [("enable_ipv4", JBool true);
                                 ("enable_ipv6", JBool true)]);
                          ("ssh_keys", JArr [JInt 1])]))])%list.
Proof.
  intro args.
  assert (H : ssh_key_ids_of sample_manager args create_world
              = (Ret [JInt 1],
                 snd (ssh_key_ids_of sample_manager args create_world)))
    by reflexivity.
  split; [exact H|].
  exact (proj2 (proj2 (C1_creation_payload sample_manager args
                         (Some [JInt 1])
                         (snd (ssh_key_ids_of sample_manager args create_world))))
           create_world H).
Defined.

(** ** Resolution of the SSH keys *)

Lemma named_view_Some (j : json) (k : Named) :
  named_view j = Some k ->
  exists kvs, j = JObj kvs /\
              lookup "id" kvs = Some (JInt (id_of k)) /\
              lookup "name" kvs = Some (JStr (name_of k)).
Proof.
  destruct j as [| | | | |kvs]; simpl; try discriminate.
  destruct (lookup "id" kvs) as [[| |i| | |]|] eqn:Hid; try discriminate.
  destruct (lookup "name" kvs) as [[| | |n| |]|] eqn:Hname; try discriminate.
  intros [= <-]. now exists kvs.
Qed.

Lemma find_ssh_key_spec (ref : string) (js : list json) (keys : list Named)
    (acc : list json) (w : World) :
  map named_view js = map Some keys ->
  find_ssh_key ref js acc w
  = match first_key ref keys with
    | Some k =>
        (Ret ((acc ++ [JInt (id_of k)])%list, true),
         after w [EPrint ("  - " ++ name_of k ++ " (ID: "
                            ++ str_of_Z (id_of k) ++ ")")])
    | None => (Ret (acc, false), w)
    end.
Proof.
  revert keys; induction js as [|j js IH]; intros [|k keys] Hview;
    try discriminate; [reflexivity|].
  simpl in Hview. injection Hview as Hj Hjs.
  apply named_view_Some in Hj as (kvs & -> & Hid & Hname).
  unfold first_key; simpl find. unfold key_matches at 1.
  simpl find_ssh_key. unfold bind, lift, getitem. rewrite Hname, Hid. simpl.
  destruct (ref =? name_of k); simpl; [reflexivity|].
  destruct (ref =? str_of_Z (id_of k)); simpl; [reflexivity|].
  apply IH, Hjs.
Qed.

Lemma resolve_ssh_keys_spec (refs : list string) (js : list json)
    (keys : list Named) (acc : list json) (w : World) :
  map named_view js = map Some keys ->
  resolve_ssh_keys refs (JArr js) acc w
  = (Ret (acc ++ map JInt (resolved_ids refs keys))%list,
     after w (map EPrint (map (resolution_line keys) refs))).
Proof.
  intros Hview. revert acc w.
  induction refs as [|ref refs IH]; intros acc w; simpl.
  - unfold ret. now rewrite app_nil_r, after_nil.
  - unfold bind at 1. simpl. unfold bind at 1.
    rewrite (find_ssh_key_spec ref js keys acc w Hview).
    unfold resolution_line at 1.
    destruct (first_key ref keys) as [k|]; simpl.
    + unfold bind at 1. simpl. rewrite IH, after_after, <- app_assoc.
      reflexivity.
    + unfold bind at 1. simpl. rewrite IH, emit_after, after_after. reflexivity.

Qed.

Lemma find_first {A} (p : A -> bool) (l : list A) (x : A) :
  find p l = Some x <->
  exists pre post,
    l = (pre ++ x :: post)%list /\ p x = true /\
    forall y, In y pre -> p y = false.
Proof.
  split.
  - induction l as [|a l IH]; simpl; [discriminate|].
    destruct (p a) eqn:Hpa.
    + intros [= ->]. exists [], l. repeat split; auto. intros y [].
    + intros Hfind. destruct (IH Hfind) as (pre & post & -> & Hpx & Hpre).
      exists (a :: pre), post. repeat split; auto.
      intros y [<-|Hy]; auto.
  - intros (pre & post & -> & Hpx & Hpre).
    induction pre as [|a pre IH]; simpl.
    + now rewrite Hpx.
    + rewrite (Hpre a) by now left. apply IH. intros y Hy. apply Hpre. now right.
Qed.

Lemma key_matches_true (ref : string) (k : Named) :
  key_matches ref k = true <->
  ref = name_of k \/ ref = str_of_Z (id_of k).
Proof.
  unfold key_matches. now rewrite orb_true_iff, !String.eqb_eq.
Qed.

Lemma key_matches_false (ref : string) (k : Named) :
  key_matches ref k = false <->
  ref <> name_of k /\ ref <> str_of_Z (id_of k).
Proof.
  unfold key_matches. now rewrite orb_false_iff, !String.eqb_neq.
Qed.

Lemma resolved_ids_matched (refs : list string) (keys : list Named) :
  map JInt (resolved_ids refs keys)
  = map (fun h => JInt (id_of (snd h))) (matched refs keys).
Proof.
  unfold resolved_ids, matched.
  induction refs as [|ref refs IH]; simpl; [reflexivity|].
  rewrite !map_app, IH. now destruct (first_key ref keys).
Qed.

Lemma matched_refs (refs : list string) (keys : list Named) :
  map fst (matched refs keys) = filter (has_key keys) refs.
Proof.
  unfold matched, has_key.
  induction refs as [|ref refs IH]; simpl; [reflexivity|].
  rewrite map_app, IH. now destruct (first_key ref keys).
Qed.

Lemma matched_first_key (refs : list string) (keys : list Named)
    (ref : string) (k : Named) :
  In (ref, k) (matched refs keys) -> first_key ref keys = Some k.
Proof.
  unfold matched. rewrite in_flat_map. intros (r & _ & Hin).
  destruct (first_key r keys) as [k'|] eqn:Hk; [|destruct Hin].
  destruct Hin as [[= -> ->]|[]]. exact Hk.
Qed.

Lemma requests_resolution_events (heading : list Event) (lines : list string) :
  requests heading = [] ->
  requests (heading ++ map EPrint lines) = [].
Proof. intros H. now rewrite requests_app, H, requests_map_EPrint. Qed.

(** ** The subcommand against an account with well-formed keys *)

Section WellFormedKeys.

Variable api_manager : HetznerCloudManager.t.
Variable args : CreateArgs.
Variable w : World.
Variable resp : Response.
Variable kvs : list (string * json).
Variable js : list json.
Variable keys : list Named.

Hypothesis Hrefs : ssh_keys args <> [].
Hypothesis Hnet : answers w (ssh_keys_request api_manager) resp.
Hypothesis Hcode : In (status_code resp) [200%Z; 201%Z].
Hypothesis Hbody : decoded resp = Some (JObj kvs).
Hypothesis Hkeys : lookup "ssh_keys" kvs = Some (JArr js).
Hypothesis Hview : map named_view js = map Some keys.

(** The lines 159-178. *)
Lemma ssh_key_ids_of_spec :
  ssh_key_ids_of api_manager args w
  = (Ret (map JInt (resolved_ids (ssh_keys args) keys)),
     after w (ERequest (ssh_keys_request api_manager)
                :: (match js with
                    | [] => []
                    | _ :: _ => [EPrint "Using the following SSH keys:"]
                    end
                    ++ map EPrint (map (resolution_line keys) (ssh_keys args)))%list)).
Proof.
  unfold ssh_key_ids_of.
  destruct (ssh_keys args) as [|ref refs] eqn:Hargs; [contradiction|].
  pose proof (perform_ok api_manager ListSshKeys resp w Hnet
                (proj2 (not_in_false _ _) Hcode)) as Hget.
  simpl in Hget. rewrite Hbody in Hget.
  rewrite (bind_Ret _ _ _ _ _ Hget).
  unfold bind at 1, lift, get. rewrite Hkeys.
  destruct js as [|j js']; simpl truthy; cbv iota.
  - unfold bind at 1, ret.
    rewrite (resolve_ssh_keys_spec _ _ keys _ _ Hview).
    now rewrite after_after.
  - run_print.
    rewrite (resolve_ssh_keys_spec _ _ keys _ _ Hview).
    now rewrite !after_after.
Qed.

(** The subcommand, end to end: the key listing, then the creation with the
    resolved IDs. *)
Lemma create_server_resolved :
  requests (trace (snd (create_server api_manager args w)))
  = (requests (trace w)
       ++ [ssh_keys_request api_manager;
           creation_request api_manager
             (spec_payload (name args) (server_type args) (image args)
                (location args)
                (map JInt (resolved_ids (ssh_keys args) keys)))])%list.
Proof.
  rewrite (create_server_requests _ _ _ _ _ ssh_key_ids_of_spec).
  simpl. rewrite requests_app. simpl.
  rewrite requests_resolution_events by now destruct js.
  now rewrite <- app_assoc.
Qed.

(** C3. With a non-empty list of references the subcommand lists the SSH
    keys once, then takes for each reference the first key whose name, or
    whose ID written in decimal, is exactly the reference; a reference no key
    answers to gets a warning and no ID, and the creation request is sent all
    the same with the IDs found.  With the keys [{id:1,name:a}] and
    [{id:2,name:b}] and the references [a] and [3], the IDs are [[1]] and the
    warning names [3]; the reference [A] designates no key. *)
Theorem C3_ssh_key_resolution :
  (exists w1 : World,
      ssh_key_ids_of api_manager args w
      = (Ret (map JInt (resolved_ids (ssh_keys args) keys)), w1) /\
      requests (trace w1)
      = (requests (trace w) ++ [ssh_keys_request api_manager])%list /\
      printed (trace w1)
      = (printed (trace w)
           ++ match js with
              | [] => []
              | _ :: _ => ["Using the following SSH keys:"]
              end
           ++ map (fun ref =>
                     match first_key ref keys with
                     | Some k =>
                         "  - " ++ name_of k ++ " (ID: "
                           ++ str_of_Z (id_of k) ++ ")"
                     | None =>
                         "Warning: SSH key '" ++ ref ++ "' not found. Skipping."
                     end)%string (ssh_keys args))%list) /\
  (forall ref k,
      first_key ref keys = Some k <->
      exists pre post,
        keys = (pre ++ k :: post)%list /\
        (ref = name_of k \/ ref = str_of_Z (id_of k)) /\
        forall k', In k' pre ->
                   ref <> name_of k' /\ ref <> str_of_Z (id_of k')) /\
  requests (trace (snd (create_server api_manager args w)))
  = (requests (trace w)
       ++ [ssh_keys_request api_manager;
           creation_request api_manager
             (spec_payload (name args) (server_type args) (image args)
                (location args)
                (map JInt (resolved_ids (ssh_keys args) keys)))])%list /\
  (let args0 := sample_create_args ["a"; "3"] in
   fst (ssh_key_ids_of sample_manager args0 create_world) = Ret [JInt 1] /\
   printed (trace (snd (ssh_key_ids_of sample_manager args0 create_world)))
   = ["Using the following SSH keys:";
      "  - a (ID: 1)";
      "Warning: SSH key '3' not found. Skipping."] /\
   fst (create_server sample_manager args0 create_world) = Ret tt /\
   fst (ssh_key_ids_of sample_manager (sample_create_args ["A"]) create_world)
   = Ret []).
Proof.
  split; [|split; [|split]].
  - eexists. split; [apply ssh_key_ids_of_spec|].
    simpl. rewrite requests_app, printed_app. simpl.
    rewrite requests_resolution_events by now destruct js.
    split; [reflexivity|].
    rewrite printed_app, printed_map_EPrint.
    now destruct js.
  - intros ref k. unfold first_key. rewrite find_first.
    split; intros (pre & post & Hk & Hm & Hpre); exists pre, post;
      (split; [exact Hk|]); (split; [now apply key_matches_true|]);
      intros k' Hk'; apply key_matches_false; auto.
  - apply create_server_resolved.
  - repeat split.
Qed.

(** C10. The resolved IDs follow the references: they are, in the order of
    the references, the ID of the key each matching reference designates, one
    per matching reference, so a key designated by two references (by its name
    and by its ID, say) appears twice, in the list and in the ["ssh_keys"] of
    the creation request.  With the keys [{id:1,name:a}] and [{id:2,name:b}]
    and the references [b], [a] and [2], the payload carries [[2; 1; 2]]. *)
Theorem C10_resolution_keeps_order_and_duplicates :
  let hits := matched (ssh_keys args) keys in
  let ids := map (fun h => JInt (id_of (snd h))) hits in
  fst (ssh_key_ids_of api_manager args w) = Ret ids /\
  map fst hits = filter (has_key keys) (ssh_keys args) /\
  (forall ref k, In (ref, k) hits -> first_key ref keys = Some k) /\
  List.length ids = List.length (filter (has_key keys) (ssh_keys args)) /\
  (exists payload,
      requests (trace (snd (create_server api_manager args w)))
      = (requests (trace w)
           ++ [ssh_keys_request api_manager;
               creation_request api_manager payload])%list /\
      (ids <> [] -> lookup "ssh_keys" payload = Some (JArr ids))) /\
  (let args0 := sample_create_args ["b"; "a"; "2"] in
   fst (ssh_key_ids_of sample_manager args0 create_world)
   = Ret [JInt 2; JInt 1; JInt 2] /\
   requests (trace (snd (create_server sample_manager args0 create_world)))
   = [ssh_keys_request sample_manager;
      creation_request sample_manager
        [("name", JStr "isaac");
         ("server_type", JStr "cax41");
         ("image", JStr "ubuntu-24.04");
         ("location", JStr "nbg1");
         ("public_net",
          JObj [("enable_ipv4", JBool true); ("enable_ipv6", JBool true)]);
         ("ssh_keys", JArr [JInt 2; JInt 1; JInt 2])]]).
Proof.
  intros hits ids.
  assert (Hids : map JInt (resolved_ids (ssh_keys args) keys) = ids)
    by apply resolved_ids_matched.
  split; [|split; [|split; [|split; [|split]]]].
  - rewrite ssh_key_ids_of_spec. simpl. now rewrite Hids.
  - apply matched_refs.
  - apply matched_first_key.
  - subst ids. now rewrite length_map, <- (matched_refs (ssh_keys args) keys),
      length_map.
  - eexists. split.
    + apply create_server_resolved.
    + intros Hne. rewrite lookup_ssh_keys_payload, Hids.
      destruct ids; [contradiction|reflexivity].
  - split; reflexivity.
Qed.

End WellFormedKeys.

Lemma C3_ssh_key_resolution_witness :
  let args0 := sample_create_args ["a"; "3"] in
  (ssh_keys args0 <> [] /\
   answers create_world (ssh_keys_request sample_manager)
     (ok_response sample_keys_body) /\
   In (status_code (ok_response sample_keys_body)) [200%Z; 201%Z] /\
   map named_view
     [JObj [("id", JInt 1); ("name", JStr "a")];
      JObj [("id", JInt 2); ("name", JStr "b")]]
   = map Some sample_keys) /\
  requests (trace (snd (create_server sample_manager args0 create_world)))
  = [ssh_keys_request sample_manager;
     creation_request sample_manager
       (spec_payload "isaac" "cax41" "ubuntu-24.04" "nbg1" [JInt 1])].
Proof.
  intro args0.
  assert (H1 : ssh_keys args0 <> []) by discriminate.
  assert (H2 : answers create_world (ssh_keys_request sample_manager)
                 (ok_response sample_keys_body)) by reflexivity.
  assert (H3 : In (status_code (ok_response sample_keys_body)) [200%Z; 201%Z])
    by (left; reflexivity).
  assert (H4 : map named_view
                 [JObj [("id", JInt 1); ("name", JStr "a")];
                  JObj [("id", JInt 2); ("name", JStr "b")]]
               = map Some sample_keys) by reflexivity.
  split; [repeat split; assumption|].
  exact (proj1 (proj2 (proj2
           (C3_ssh_key_resolution sample_manager args0 create_world
              (ok_response sample_keys_body) _ _ sample_keys
              H1 H2 H3 eq_refl eq_refl H4)))).
Defined.

Lemma C10_resolution_keeps_order_and_duplicates_witness :
  let args0 := sample_create_args ["b"; "a"; "2"] in
  (ssh_keys args0 <> [] /\
   answers create_world (ssh_keys_request sample_manager)
     (ok_response sample_keys_body) /\
   In (status_code (ok_response sample_keys_body)) [200%Z; 201%Z] /\
   map named_view
     [JObj [("id", JInt 1); ("name", JStr "a")];
      JObj [("id", JInt 2); ("name", JStr "b")]]
   = map Some sample_keys) /\
  fst (ssh_key_ids_of sample_manager args0 create_world)
  = Ret (map (fun h => JInt (id_of (snd h)))
           (matched (ssh_keys args0) sample_keys)).
Proof.
  intro args0.
  assert (H1 : ssh_keys args0 <> []) by discriminate.
  assert (H2 : answers create_world (ssh_keys_request sample_manager)
                 (ok_response sample_keys_body)) by reflexivity.
  assert (H3 : In (status_code (ok_response sample_keys_body)) [200%Z; 201%Z])
    by (left; reflexivity).
  assert (H4 : map named_view
                 [JObj [("id", JInt 1); ("name", JStr "a")];
                  JObj [("id", JInt 2); ("name", JStr "b")]]
               = map Some sample_keys) by reflexivity.
  split; [repeat split; assumption|].
  exact (proj1
           (C10_resolution_keeps_order_and_duplicates sample_manager args0
              create_world (ok_response sample_keys_body) _ _ sample_keys
              H1 H2 H3 eq_refl eq_refl H4)).
Defined.

(* ################################################################# *)
(** * Deletion *)

Lemma answers_after (w : World) (events : list Event) (r : Request)
    (resp : Response) :
  requests events = [] ->
  answers w r resp -> answers (after w events) r resp.
Proof.
  unfold answers; simpl. intros He. now rewrite requests_app, He, app_nil_r.
Qed.

(** ** The ID to delete *)

Lemma find_server_spec (identifier : string) (js : list json)
    (servers : list Named) (w : World) :
  map named_view js = map Some servers ->
  find_server identifier js w
  = match first_server identifier servers with
    | Some s =>
        (Ret (str_of_Z (id_of s)),
         after w [EPrint ("Found server '" ++ identifier ++ "' with ID: "
                            ++ str_of_Z (id_of s))])
    | None =>
        (Exit 1,
         after w [EPrint ("Error: Server with name '" ++ identifier
                            ++ "' not found.")])
    end.
Proof.
  revert servers; induction js as [|j js IH]; intros [|s servers] Hview;
    try discriminate; [reflexivity|].
  simpl in Hview. injection Hview as Hj Hjs.
  apply named_view_Some in Hj as (kvs & -> & Hid & Hname).
  unfold first_server; simpl find.
  simpl find_server. unfold bind, lift, getitem. rewrite Hname. simpl.
  destruct (identifier =? name_of s); simpl.
  - now rewrite Hid.
  - apply IH, Hjs.
Qed.

Lemma resolve_server_id_digits (api_manager : HetznerCloudManager.t)
    (args : DeleteArgs) (w : World) :
  isdigit (server_id args) = true ->
  resolve_server_id api_manager args w = (Ret (server_id args), w).
Proof. unfold resolve_server_id. now intros ->. Qed.

Lemma resolve_server_id_named (api_manager : HetznerCloudManager.t)
    (args : DeleteArgs) (w : World) (resp : Response)
    (kvs : list (string * json)) (js : list json) (servers : list Named) :
  isdigit (server_id args) = false ->
  answers w (servers_request api_manager) resp ->
  In (status_code resp) [200%Z; 201%Z] ->
  decoded resp = Some (JObj kvs) ->
  lookup "servers" kvs = Some (JArr js) ->
  map named_view js = map Some servers ->
  resolve_server_id api_manager args w
  = match first_server (server_id args) servers with
    | Some s =>
        (Ret (str_of_Z (id_of s)),
         after w [ERequest (servers_request api_manager);
                  EPrint ("Found server '" ++ server_id args ++ "' with ID: "
                            ++ str_of_Z (id_of s))])
    | None =>
        (Exit 1,
         after w [ERequest (servers_request api_manager);
                  EPrint ("Error: Server with name '" ++ server_id args
                            ++ "' not found.")])
    end.
Proof.
  intros Hdigit Hnet Hcode Hbody Hservers Hview.
  unfold resolve_server_id. rewrite Hdigit. cbn [negb].
  apply not_in_false in Hcode.
  pose proof (perform_ok api_manager ListServers resp w Hnet Hcode) as Hget.
  simpl in Hget. rewrite Hbody in Hget.
  rewrite (bind_Ret _ _ _ _ _ Hget).
  unfold bind at 1, lift, get. rewrite Hservers. simpl.
  unfold bind at 1. simpl.
  rewrite (find_server_spec _ _ servers _ Hview).
  destruct (first_server (server_id args) servers); now rewrite after_after.
Qed.

(** Resolution sends the listing request when the identifier is a name, and
    nothing otherwise. *)
Lemma resolve_server_id_requests (api_manager : HetznerCloudManager.t)
    (args : DeleteArgs) (w : World) :
  requests (trace (snd (resolve_server_id api_manager args w)))
  = (requests (trace w)
       ++ if isdigit (server_id args) then []
          else [servers_request api_manager])%list.
Proof.
  unfold resolve_server_id.
  destruct (isdigit (server_id args)); simpl; [now rewrite app_nil_r|].
  rewrite requests_bind_quiet.
  - apply (perform_requests api_manager ListServers).
  - intros response.
    repeat (apply quiet_bind; [auto with quiet|]; intros ?).
    apply quiet_find_server.
Qed.

(** ** The confirmation *)

Lemma declined_false (confirmation : string) :
  declined confirmation = false <->
  lower confirmation = "y" \/ lower confirmation = "yes".
Proof.
  unfold declined. rewrite negb_false_iff. simpl.
  rewrite !orb_true_iff, !String.eqb_eq. intuition discriminate.
Qed.

Lemma declined_true (confirmation : string) :
  declined confirmation = true <->
  lower confirmation <> "y" /\ lower confirmation <> "yes".
Proof.
  rewrite <- not_false_iff_true, declined_false. tauto.
Qed.

Lemma confirm_deletion_forced (args : DeleteArgs) (sid : string) (w : World) :
  force args = true -> confirm_deletion args sid w = (Ret tt, w).
Proof. unfold confirm_deletion. now intros ->. Qed.

Lemma confirm_deletion_answer (args : DeleteArgs) (sid : string) (w : World)
    (line : string) (rest : list string) :
  force args = false ->
  stdin w = line :: rest ->
  confirm_deletion args sid w
  = if declined line
    then (Exit 0,
          mkWorld (net w) (environ w) rest
            (trace w ++ [EPrompt (confirmation_prompt sid);
                         EPrint "Deletion cancelled."]))
    else (Ret tt,
          mkWorld (net w) (environ w) rest
            (trace w ++ [EPrompt (confirmation_prompt sid)])).
Proof.
  intros Hforce Hin. unfold confirm_deletion. rewrite Hforce. cbn [negb].
  unfold bind at 1, input. rewrite Hin.
  destruct (declined line); [|reflexivity].
  unfold bind, print, sys_exit, lift, emit. simpl.
  now rewrite <- app_assoc.
Qed.

(** ** The deletion itself *)

Lemma delete_and_report_spec (api_manager : HetznerCloudManager.t)
    (sid : string) (w : World) (resp : Response) :
  answers w (deletion_request api_manager sid) resp ->
  delete_and_report api_manager sid w
  = if HetznerCloudManager.not_in (status_code resp) [204%Z]
    then (error_outcome resp,
          after w (EPrint (deleting_line sid)
                     :: ERequest (deletion_request api_manager sid)
                     :: error_events resp))
    else (Ret tt,
          after w [EPrint (deleting_line sid);
                   ERequest (deletion_request api_manager sid);
                   EPrint (deleted_line sid)]).
Proof.
  intros Hnet. unfold delete_and_report.
  rewrite (bind_Ret _ _ _ _ _ (print_after _ _)).
  apply (answers_after w [EPrint (deleting_line sid)]) in Hnet; [|reflexivity].
  destruct (HetznerCloudManager.not_in (status_code resp) [204%Z]) eqn:Hcode.
  - pose proof (perform_fail api_manager (DeleteServer sid) resp _ Hnet Hcode)
      as H.
    simpl in H. now rewrite (bind_error_outcome _ _ _ _ _ H), after_after.
  - pose proof (perform_ok api_manager (DeleteServer sid) resp _ Hnet Hcode)
      as H.
    simpl in H. rewrite (bind_Ret _ _ _ _ _ H).
    now rewrite print_after, !after_after.
Qed.

Lemma delete_server_from (api_manager : HetznerCloudManager.t)
    (args : DeleteArgs) (sid : string) (w0 w1 w : World) :
  resolve_server_id api_manager args w0 = (Ret sid, w1) ->
  confirm_deletion args sid w1 = (Ret tt, w) ->
  delete_server api_manager args w0 = delete_and_report api_manager sid w.
Proof.
  intros Hid Hconfirm. unfold delete_server.
  now rewrite (bind_Ret _ _ _ _ _ Hid), (bind_Ret _ _ _ _ _ Hconfirm).
Qed.

Lemma delete_and_report_trace (api_manager : HetznerCloudManager.t)
    (sid : string) (w : World) :
  exists events,
    snd (delete_and_report api_manager sid w)
    = after w (EPrint (deleting_line sid)
                 :: ERequest (deletion_request api_manager sid) :: events).
Proof.
  destruct (net w (requests (trace w)) (deletion_request api_manager sid))
    as [resp|] eqn:Hnet.
  - rewrite (delete_and_report_spec _ _ _ resp Hnet).
    destruct (HetznerCloudManager.not_in (status_code resp) [204%Z]); simpl;
      eexists; reflexivity.
  - exists []. unfold delete_and_report.
    rewrite (bind_Ret _ _ _ _ _ (print_after _ _)).
    assert (H : net (after w [EPrint (deleting_line sid)])
                  (requests (trace (after w [EPrint (deleting_line sid)])))
                  (request_of api_manager (DeleteServer sid)) = NetworkError).
    { simpl. now rewrite requests_app, app_nil_r. }
    apply perform_network_error in H. simpl in H.
    now rewrite (bind_Raise _ _ _ _ _ H), after_after.
Qed.

Lemma delete_and_report_requests (api_manager : HetznerCloudManager.t)
    (sid : string) (w : World) :
  requests (trace (snd (delete_and_report api_manager sid w)))
  = (requests (trace w) ++ [deletion_request api_manager sid])%list.
Proof.
  unfold delete_and_report.
  rewrite (bind_Ret _ _ _ _ _ (print_after _ _)).
  rewrite requests_bind_quiet by auto with quiet.
  pose proof (perform_requests api_manager (DeleteServer sid)
                (after w [EPrint (deleting_line sid)])) as H.
  change (perform api_manager (DeleteServer sid))
    with (HetznerCloudManager.delete_server api_manager sid) in H.
  unfold deleting_line in H. rewrite H. simpl.
  rewrite requests_app. simpl. now rewrite app_nil_r.
Qed.

(** What the subcommand sends once the ID is known: the deletion request
    when the confirmation lets it through, nothing otherwise. *)
Lemma delete_server_requests (api_manager : HetznerCloudManager.t)
    (args : DeleteArgs) (sid : string) (w0 w : World) :
  resolve_server_id api_manager args w0 = (Ret sid, w) ->
  requests (trace (snd (delete_server api_manager args w0)))
  = (requests (trace w)
       ++ match fst (confirm_deletion args sid w) with
          | Ret _ => [deletion_request api_manager sid]
          | _ => []
          end)%list.
Proof.
  intros Hid. unfold delete_server. rewrite (bind_Ret _ _ _ _ _ Hid).
  pose proof (quiet_confirm_deletion args sid w) as Hquiet.
  unfold bind.
  destruct (confirm_deletion args sid w) as [[[]|c|e] w2]; simpl in *;
    rewrite <- Hquiet; [|now rewrite app_nil_r|now rewrite app_nil_r].
  apply delete_and_report_requests.
Qed.

Lemma error_report_not_deleted (resp : Response) (sid line : string) :
  error_report resp = Some line -> line <> deleted_line sid.
Proof.
  unfold error_report, deleted_line.
  destruct (decoded resp) as [[| | | | |kvs]|]; try discriminate.
  - destruct (lookup "error" kvs) as [[| | | | |e]|]; try discriminate;
      intros [= <-]; discriminate.
  - intros [= <-]; discriminate.
Qed.

(** C2. A purely numeric identifier is the ID as it stands: nothing is
    listed, and what the subcommand sends, if the confirmation lets it, is the
    deletion of that very identifier.  Any other identifier is looked up in
    the listed servers: the first server whose name is exactly the identifier
    gives its ID, written in decimal; when no server has that name an error is
    printed and the process exits with status 1.  So [isaac] resolves to
    [123] in an account holding [{id:123, name:isaac}], and [456] to
    itself. *)
Theorem C2_delete_identifier_resolution :
  forall (api_manager : HetznerCloudManager.t) (args : DeleteArgs) (w : World),
    (isdigit (server_id args) = true ->
     resolve_server_id api_manager args w = (Ret (server_id args), w) /\
     requests (trace (snd (delete_server api_manager args w)))
     = (requests (trace w)
          ++ match fst (confirm_deletion args (server_id args) w) with
             | Ret _ => [deletion_request api_manager (server_id args)]
             | _ => []
             end)%list) /\
    (isdigit (server_id args) = false ->
     forall (resp : Response) (kvs : list (string * json)) (js : list json)
            (servers : list Named),
       answers w (servers_request api_manager) resp ->
       In (status_code resp) [200%Z; 201%Z] ->
       decoded resp = Some (JObj kvs) ->
       lookup "servers" kvs = Some (JArr js) ->
       map named_view js = map Some servers ->
       (forall s,
           first_server (server_id args) servers = Some s ->
           resolve_server_id api_manager args w
           = (Ret (str_of_Z (id_of s)),
              after w [ERequest (servers_request api_manager);
                       EPrint ("Found server '" ++ server_id args
                                 ++ "' with ID: " ++ str_of_Z (id_of s))])) /\
       (first_server (server_id args) servers = None ->
        delete_server api_manager args w
        = (Exit 1,
           after w [ERequest (servers_request api_manager);
                    EPrint ("Error: Server with name '" ++ server_id args
                              ++ "' not found.")])) /\
       (forall s,
           first_server (server_id args) servers = Some s <->
           exists pre post,
             servers = (pre ++ s :: post)%list /\
             name_of s = server_id args /\
             forall s', In s' pre -> name_of s' <> server_id args)) /\
    fst (resolve_server_id sample_manager (mkDeleteArgs "isaac" false)
           (delete_world no_content_response []))
    = Ret "123" /\
    resolve_server_id sample_manager (mkDeleteArgs "456" false)
      (delete_world no_content_response [])
    = (Ret "456", delete_world no_content_response []).
Proof.
  intros api_manager args w.
  split; [|split; [|split; reflexivity]].
  - intros Hdigit.
    pose proof (resolve_server_id_digits api_manager args w Hdigit) as Hid.
    split; [exact Hid|]. now apply delete_server_requests.
  - intros Hname resp kvs js servers Hnet Hcode Hbody Hservers Hview.
    pose proof (resolve_server_id_named _ _ _ _ _ _ _ Hname Hnet Hcode Hbody
                  Hservers Hview) as Hid.
    split; [|split].
    + intros s Hs. now rewrite Hs in Hid.
    + intros Hs. rewrite Hs in Hid. unfold delete_server.
      now rewrite (bind_Exit _ _ _ _ _ Hid).
    + intros s. unfold first_server. rewrite find_first.
      split; intros (pre & post & Hk & Hm & Hpre); exists pre, post;
        (split; [exact Hk|]).
      * apply String.eqb_eq in Hm. split; [now symmetry|].
        intros s' Hs'. apply Hpre, String.eqb_neq in Hs'. congruence.
      * split; [apply String.eqb_eq; now symmetry|].
        intros s' Hs'. apply String.eqb_neq. specialize (Hpre s' Hs').
        congruence.
Qed.

Lemma C2_delete_identifier_resolution_witness :
  let args := mkDeleteArgs "456" true in
  let w := delete_world no_content_response [] in
  isdigit (server_id args) = true /\
  requests (trace (snd (delete_server sample_manager args w)))
  = [deletion_request sample_manager "456"].
Proof.
  intros args w.
  assert (H : isdigit (server_id args) = true) by reflexivity.
  split; [exact H|].
  exact (proj2 (proj1 (C2_delete_identifier_resolution sample_manager args w) H)).
Defined.

(** C4. The deletion succeeds exactly on status 204: the client then returns
    its record of the deletion and the subcommand prints that the server has
    been deleted.  On any other status (404, say) the client does not return:
    the process ends with a non-zero exit status, and after the line that
    announces the deletion the subcommand prints at most the error report,
    never the line saying the server has been deleted. *)
Theorem C4_deletion_succeeds_only_on_204 :
  forall (self : HetznerCloudManager.t) (sid : string) (w : World)
         (resp : Response),
    answers w (deletion_request self sid) resp ->
    (status_code resp = 204%Z ->
     HetznerCloudManager.delete_server self sid w
     = (Ret (JObj [("status", JStr "deleted"); ("server_id", JStr sid)]),
        after w [ERequest (deletion_request self sid)])) /\
    (status_code resp <> 204%Z ->
     exists (o : outcome json) (w' : World),
       HetznerCloudManager.delete_server self sid w = (o, w') /\
       (forall v, o <> Ret v) /\
       exit_status o <> 0%Z) /\
    (forall (args : DeleteArgs) (w0 w1 : World),
        resolve_server_id self args w0 = (Ret sid, w1) ->
        confirm_deletion args sid w1 = (Ret tt, w) ->
        (status_code resp = 204%Z ->
         delete_server self args w0
         = (Ret tt,
            after w [EPrint ("Deleting server ID: " ++ sid ++ "...");
                     ERequest (deletion_request self sid);
                     EPrint ("Server " ++ sid ++ " has been deleted.")])) /\
        (status_code resp <> 204%Z ->
         exists (o : outcome unit) (w' : World) (report : list string),
           delete_server self args w0 = (o, w') /\
           exit_status o <> 0%Z /\
           printed (trace w')
           = (printed (trace w)
                ++ ("Deleting server ID: " ++ sid ++ "...")%string :: report)%list /\
           report = match error_report resp with
                    | Some line => [line]
                    | None => []
                    end /\
           ~ In ("Server " ++ sid ++ " has been deleted.")%string
               (("Deleting server ID: " ++ sid ++ "...")%string :: report))).
Proof.
  intros self sid w resp Hnet.
  assert (Hok : status_code resp = 204%Z ->
                HetznerCloudManager.not_in (status_code resp) [204%Z] = false).
  { intros H. apply not_in_false. now left. }
  assert (Hko : status_code resp <> 204%Z ->
                HetznerCloudManager.not_in (status_code resp) [204%Z] = true).
  { intros H. apply not_in_true. intros [Heq|[]]. now apply H. }
  split; [|split].
  - intros Hcode.
    apply (perform_ok self (DeleteServer sid) resp w Hnet (Hok Hcode)).
  - intros Hcode.
    exists (error_outcome resp),
      (after w (ERequest (deletion_request self sid) :: error_events resp)).
    split; [apply (perform_fail self (DeleteServer sid) resp w Hnet (Hko Hcode))|].
    split.
    + intros v. unfold error_outcome. now destruct (error_report resp).
    + rewrite exit_status_error_outcome. discriminate.
  - intros args w0 w1 Hid Hconfirm.
    rewrite (delete_server_from _ _ _ _ _ _ Hid Hconfirm).
    rewrite (delete_and_report_spec _ _ _ _ Hnet).
    split; intros Hcode.
    + now rewrite (Hok Hcode).
    + rewrite (Hko Hcode).
      exists (error_outcome resp),
        (after w (EPrint (deleting_line sid)
                    :: ERequest (deletion_request self sid)
                    :: error_events resp)),
        (match error_report resp with Some line => [line] | None => [] end).
      split; [reflexivity|].
      split; [rewrite exit_status_error_outcome; discriminate|].
      split.
      { simpl. rewrite printed_app. simpl. unfold error_events.
        now destruct (error_report resp). }
      split; [reflexivity|].
      intros [Hin|Hin]; [discriminate Hin|].
      destruct (error_report resp) as [line|] eqn:Hreport; [|destruct Hin].
      destruct Hin as [Heq|[]].
      now apply (error_report_not_deleted resp sid line Hreport).
Qed.

Lemma C4_deletion_succeeds_only_on_204_witness :
  let args := mkDeleteArgs "42" true in
  let w := delete_world not_found_response [] in
  (answers w (deletion_request sample_manager "42") not_found_response /\
   status_code not_found_response <> 204%Z /\
   resolve_server_id sample_manager args w = (Ret "42", w) /\
   confirm_deletion args "42" w = (Ret tt, w)) /\
  exists (o : outcome unit) (w' : World) (report : list string),
    delete_server sample_manager args w = (o, w') /\
    exit_status o <> 0%Z /\
    printed (trace w')
    = (printed (trace w) ++ "Deleting server ID: 42..." :: report)%list /\
    report = ["Error: server not found"] /\
    ~ In "Server 42 has been deleted." ("Deleting server ID: 42..." :: report).
Proof.
  intros args w.
  assert (H1 : answers w (deletion_request sample_manager "42")
                 not_found_response) by reflexivity.
  assert (H2 : status_code not_found_response <> 204%Z) by discriminate.
  assert (H3 : resolve_server_id sample_manager args w = (Ret "42", w))
    by reflexivity.
  assert (H4 : confirm_deletion args "42" w = (Ret tt, w)) by reflexivity.
  split; [repeat split; assumption|].
  exact (proj2 (proj2 (proj2
           (C4_deletion_succeeds_only_on_204 sample_manager "42" w
              not_found_response H1)) args w w H3 H4) H2).
Defined.

(** C5. Without the force flag the subcommand asks for a confirmation and
    reads one line.  When the line, in lower case, is [y] or [yes], the
    deletion is announced and its request sent.  For any other line nothing is
    deleted: the subcommand prints that the deletion is cancelled and exits
    with status 0, and the only request of the run, if any, is the listing
    that resolved a name.  A line [n] declines; [YES] confirms. *)
Theorem C5_confirmation :
  forall (api_manager : HetznerCloudManager.t) (args : DeleteArgs)
         (w0 w : World) (sid line : string) (rest : list string),
    force args = false ->
    resolve_server_id api_manager args w0 = (Ret sid, w) ->
    stdin w = line :: rest ->
    let prompt :=
      EPrompt ("Are you sure you want to delete server ID " ++ sid
                 ++ "? [y/N]: ") in
    (lower line = "y" \/ lower line = "yes" ->
     exists events,
       trace (snd (delete_server api_manager args w0))
       = (trace w
            ++ prompt
            :: EPrint ("Deleting server ID: " ++ sid ++ "...")
            :: ERequest (deletion_request api_manager sid)
            :: events)%list) /\
    (lower line <> "y" -> lower line <> "yes" ->
     delete_server api_manager args w0
     = (Exit 0,
        mkWorld (net w) (environ w) rest
          (trace w ++ [prompt; EPrint "Deletion cancelled."])) /\
     requests (trace (snd (delete_server api_manager args w0)))
     = (requests (trace w0)
          ++ if isdigit (server_id args) then []
             else [servers_request api_manager])%list) /\
    (let declining := delete_world no_content_response ["n"] in
     let confirming := delete_world no_content_response ["YES"] in
     let args0 := mkDeleteArgs "456" false in
     fst (delete_server sample_manager args0 declining) = Exit 0 /\
     requests (trace (snd (delete_server sample_manager args0 declining))) = [] /\
     fst (delete_server sample_manager args0 confirming) = Ret tt /\
     requests (trace (snd (delete_server sample_manager args0 confirming)))
     = [deletion_request sample_manager "456"]).
Proof.
  intros api_manager args w0 w sid line rest Hforce Hid Hin prompt.
  pose proof (confirm_deletion_answer args sid w line rest Hforce Hin) as Hc.
  split; [|split; [|repeat split]].
  - intros Hyes. apply declined_false in Hyes. rewrite Hyes in Hc.
    rewrite (delete_server_from _ _ _ _ _ _ Hid Hc).
    destruct (delete_and_report_trace api_manager sid
                (mkWorld (net w) (environ w) rest
                   (trace w ++ [EPrompt (confirmation_prompt sid)])))
      as (events & ->).
    exists events. simpl. now rewrite <- app_assoc.
  - intros Hy Hyes.
    assert (Hno : declined line = true) by now apply declined_true.
    rewrite Hno in Hc.
    assert (Hrun : delete_server api_manager args w0
                   = (Exit 0,
                      mkWorld (net w) (environ w) rest
                        (trace w ++ [prompt; EPrint "Deletion cancelled."]))).
    { unfold delete_server. rewrite (bind_Ret _ _ _ _ _ Hid).
      now rewrite (bind_Exit _ _ _ _ _ Hc). }
    split; [exact Hrun|].
    rewrite Hrun. simpl. rewrite requests_app. simpl. rewrite app_nil_r.
    pose proof (resolve_server_id_requests api_manager args w0) as Hreq.
    now rewrite Hid in Hreq.
Qed.

Lemma C5_confirmation_witness :
  let args := mkDeleteArgs "isaac" false in
  let w0 := delete_world no_content_response ["n"] in
  let w := snd (resolve_server_id sample_manager args w0) in
  (force args = false /\
   resolve_server_id sample_manager args w0 = (Ret "123", w) /\
   stdin w = ["n"] /\
   lower "n" <> "y" /\ lower "n" <> "yes") /\
  fst (delete_server sample_manager args w0) = Exit 0 /\
  requests (trace (snd (delete_server sample_manager args w0)))
  = [servers_request sample_manager].
Proof.
  intros args w0 w.
  assert (H1 : force args = false) by reflexivity.
  assert (H2 : resolve_server_id sample_manager args w0 = (Ret "123", w))
    by reflexivity.
  assert (H3 : stdin w = ["n"]) by reflexivity.
  assert (H4 : lower "n" <> "y") by discriminate.
  assert (H5 : lower "n" <> "yes") by discriminate.
  split; [repeat split; assumption|].
  destruct (proj1 (proj2 (C5_confirmation sample_manager args w0 w "123" "n" []
                            H1 H2 H3)) H4 H5) as [Hrun Hreq].
  split; [now rewrite Hrun|exact Hreq].
Defined.

(* ################################################################# *)
(** * Listing *)

Lemma get_nested (kvs o : list (string * json)) (k : string) :
  nested kvs k = Some o -> get (JObj kvs) k (JObj []) = Ret (JObj o).
Proof.
  unfold nested, get.
  destruct (lookup k kvs) as [[| | | | |o']|]; try discriminate;
    now intros [= ->].
Qed.

Lemma get_column_str (kvs : list (string * json)) (k : string)
    (field : option string) :
  opt_field kvs k as_str = Some field ->
  exists v, get (JObj kvs) k (JStr "N/A") = Ret v /\
            forall width, format_left v width = Ret (column field width).
Proof.
  unfold opt_field, get.
  destruct (lookup k kvs) as [[| | |s| |]|]; simpl; try discriminate;
    intros [= <-]; eexists; split; reflexivity.
Qed.

Lemma get_column_int (kvs : list (string * json)) (k : string)
    (field : option Z) :
  opt_field kvs k as_int = Some field ->
  exists v, get (JObj kvs) k (JStr "N/A") = Ret v /\
            forall width,
              format_left v width
              = Ret (column (option_map str_of_Z field) width).
Proof.
  unfold opt_field, get.
  destruct (lookup k kvs) as [[| |z| | |]|]; simpl; try discriminate;
    intros [= <-]; eexists; split; reflexivity.
Qed.

Lemma and_then_Some {A B} (o : option A) (f : A -> option B) (b : B) :
  and_then o f = Some b -> exists a, o = Some a /\ f a = Some b.
Proof. destruct o as [a|]; simpl; [|discriminate]. intros H. now exists a. Qed.

Lemma print_server_row_spec (j : json) (r : ServerRow) (w : World) :
  row_view j = Some r ->
  print_server_row j w = (Ret tt, after w [EPrint (spec_row r)]).
Proof.
  destruct j as [| | | | |kvs]; try discriminate. unfold row_view.
  intros H.
  apply and_then_Some in H as (id & Hid & H).
  apply and_then_Some in H as (name & Hname & H).
  apply and_then_Some in H as (status & Hstatus & H).
  apply and_then_Some in H as (server_type & Hst & H).
  apply and_then_Some in H as (type_name & Htype & H).
  apply and_then_Some in H as (public_net & Hpn & H).
  apply and_then_Some in H as (ipv4 & Hv4 & H).
  apply and_then_Some in H as (ip & Hip & H).
  apply and_then_Some in H as (datacenter & Hdc & H).
  apply and_then_Some in H as (location & Hloc & H).
  apply and_then_Some in H as (location_name & Hln & H).
  injection H as <-.
  apply get_column_int in Hid as (v1 & G1 & F1).
  apply get_column_str in Hname as (v2 & G2 & F2).
  apply get_column_str in Hstatus as (v3 & G3 & F3).
  apply get_nested in Hst, Hpn, Hv4, Hdc, Hloc.
  apply get_column_str in Htype as (v4 & G4 & F4).
  apply get_column_str in Hip as (v5 & G5 & F5).
  apply get_column_str in Hln as (v6 & G6 & F6).
  unfold print_server_row.
  rewrite G1; unfold bind at 1, lift.
  rewrite G2; unfold bind at 1.
  rewrite G3; unfold bind at 1.
  rewrite Hst; unfold bind at 1.
  rewrite G4; unfold bind at 1.
  rewrite Hpn; unfold bind at 1.
  rewrite Hv4; unfold bind at 1.
  rewrite G5; unfold bind at 1.
  rewrite Hdc; unfold bind at 1.
  rewrite Hloc; unfold bind at 1.
  rewrite G6; unfold bind at 1.
  rewrite F1, F2, F3, F4, F5, F6. unfold bind. reflexivity.
Qed.

Lemma print_server_rows_spec (js : list json) (rows : list ServerRow)
    (w : World) :
  map row_view js = map Some rows ->
  print_server_rows js w = (Ret tt, after w (map EPrint (map spec_row rows))).
Proof.
  revert rows w; induction js as [|j js IH]; intros [|r rows] w Hview;
    try discriminate.
  - simpl. unfold ret. now rewrite after_nil.
  - simpl in Hview. injection Hview as Hj Hjs. simpl.
    rewrite (bind_Ret _ _ _ _ _ (print_server_row_spec _ _ _ Hj)).
    now rewrite (IH rows _ Hjs), after_after.
Qed.

(** C6, as the script has it.  When the account has no server the subcommand
    prints the one line [No servers found.].  Otherwise, for servers each of
    whose fields is either absent or of its expected kind, it prints the
    count, the titles ID, NAME, STATUS, TYPE, IPv4 and LOCATION in columns of
    10, 20, 15, 10, 15 and 10 characters, a rule of 80 dashes, and one line
    per server in the order of the listing, each field padded to its column
    and replaced by [N/A] when its key is absent. *)
Theorem C6_listing_table :
  forall (api_manager : HetznerCloudManager.t) (w : World) (resp : Response)
         (kvs : list (string * json)),
    answers w (servers_request api_manager) resp ->
    In (status_code resp) [200%Z; 201%Z] ->
    decoded resp = Some (JObj kvs) ->
    (lookup "servers" kvs = None \/ lookup "servers" kvs = Some (JArr []) ->
     list_servers api_manager w
     = (Ret tt,
        after w [ERequest (servers_request api_manager);
                 EPrint "No servers found."])) /\
    (forall (js : list json) (rows : list ServerRow),
        lookup "servers" kvs = Some (JArr js) ->
        js <> [] ->
        map row_view js = map Some rows ->
        list_servers api_manager w
        = (Ret tt,
           after w
             (ERequest (servers_request api_manager)
                :: map EPrint
                     ([(nl ++ "Found " ++ str_of_Z (Z.of_nat (List.length js))
                          ++ " servers:" ++ nl)%string;
                       "ID         NAME                 STATUS          TYPE       IPv4            LOCATION  ";
                       replicate 80 "-"]
                      ++ map spec_row rows)%list))) /\
    printed (trace (snd (list_servers sample_manager
                           (listing_world sample_listing_body))))
    = [(nl ++ "Found 2 servers:" ++ nl)%string;
       "ID         NAME                 STATUS          TYPE       IPv4            LOCATION  ";
       replicate 80 "-";
       "123        isaac                running         cax41      203.0.113.5     nbg1      ";
       "N/A        spare                N/A             N/A        N/A             N/A       "].
Proof.
  intros api_manager w resp kvs Hnet Hcode Hbody.
  apply not_in_false in Hcode.
  pose proof (perform_ok api_manager ListServers resp w Hnet Hcode) as Hget.
  simpl in Hget. rewrite Hbody in Hget.
  split; [|split; [|reflexivity]].
  - intros Hservers. unfold list_servers.
    rewrite (bind_Ret _ _ _ _ _ Hget).
    unfold bind at 1, lift, get.
    destruct Hservers as [-> | ->]; cbn [truthy List.length Nat.eqb negb];
      now rewrite print_after, after_after.
  - intros js rows Hservers Hjs Hview. unfold list_servers.
    rewrite (bind_Ret _ _ _ _ _ Hget).
    unfold bind at 1, lift, get. rewrite Hservers.
    destruct js as [|j js]; [contradiction|].
    cbn [truthy List.length Nat.eqb negb].
    unfold bind at 1. cbn [len iter].
    do 3 run_print.
    unfold bind at 1.
    rewrite (print_server_rows_spec _ rows _ Hview), after_after.
    reflexivity.
Qed.

Lemma C6_listing_table_witness :
  let w := listing_world sample_listing_body in
  (answers w (servers_request sample_manager) (ok_response sample_listing_body) /\
   In (status_code (ok_response sample_listing_body)) [200%Z; 201%Z]) /\
  fst (list_servers sample_manager w) = Ret tt /\
  printed (trace (snd (list_servers sample_manager w)))
  = ([(nl ++ "Found 2 servers:" ++ nl)%string;
      "ID         NAME                 STATUS          TYPE       IPv4            LOCATION  ";
      replicate 80 "-"]
     ++ map spec_row sample_rows)%list.
Proof.
  intro w.
  assert (H1 : answers w (servers_request sample_manager)
                 (ok_response sample_listing_body)) by reflexivity.
  assert (H2 : In (status_code (ok_response sample_listing_body))
                 [200%Z; 201%Z]) by (left; reflexivity).
  split; [split; assumption|].
  pose proof (proj1 (proj2
                (C6_listing_table sample_manager w
                   (ok_response sample_listing_body) _ H1 H2 eq_refl))
                _ sample_rows eq_refl ltac:(discriminate) eq_refl) as Hrun.
  rewrite Hrun. split; reflexivity.
Defined.

(** Against C6 as stated: a server without a public IPv4 address, listed
    with ["ipv4"] present and [null], gets no row with [N/A].  [dict.get]
    returns the [None] it finds, the next [.get] raises [AttributeError], and
    the output stops after the rule. *)
Lemma C6_null_field_prints_no_row :
  let body :=
    JObj [("servers",
           JArr [JObj [("id", JInt 5); ("name", JStr "bare");
                       ("public_net", JObj [("ipv4", JNull)])]])] in
  let run := list_servers sample_manager (listing_world body) in
  fst run = Raise AttributeError /\
  printed (trace (snd run))
  = [(nl ++ "Found 1 servers:" ++ nl)%string;
     table_header;
     replicate 80 "-"] /\
  ~ In (spec_row (mkServerRow (Some 5%Z) (Some "bare") None None None None))
      (printed (trace (snd run))).
Proof.
  intros body run. split; [reflexivity|]. split; [reflexivity|].
  vm_compute. intros [H|[H|[H|[]]]]; discriminate H.
Qed.

(** A field that is present but [null] is not missing: [dict.get] returns
    the [None] it finds, and the row is not printed. *)
Example list_servers_null_field :
  let body :=
    JObj [("servers",
           JArr [JObj [("id", JInt 5); ("name", JStr "bare");
                       ("public_net", JObj [("ipv4", JNull)])]])] in
  fst (list_servers sample_manager (listing_world body)) = Raise AttributeError.
Proof. reflexivity. Qed.

(* ################################################################# *)
(** * The command line *)

Lemma main_with_token (cli : Cli) (w : World) (t : string) :
  or_else (cli_token cli) (assoc "HETZNER_API_TOKEN" (environ w)) = Some t ->
  t <> "" ->
  main cli w = call_func (HetznerCloudManager.init t) (func (parse_args cli)) w.
Proof.
  intros Htoken Ht. unfold main, bind, environ_get.
  cbn [token parse_args]. rewrite Htoken.
  destruct t; [contradiction|reflexivity].
Qed.

Lemma main_without_token (cli : Cli) (w : World) :
  or_else (cli_token cli) (assoc "HETZNER_API_TOKEN" (environ w)) = None \/
  or_else (cli_token cli) (assoc "HETZNER_API_TOKEN" (environ w)) = Some "" ->
  main cli w = (Exit 2, after w [EStderr token_required]).
Proof.
  intros Htoken. unfold main, bind, environ_get.
  cbn [token parse_args]. now destruct Htoken as [-> | ->].
Qed.

(** C7, as the script has it.  A token given on the command line and not
    empty is the one the client is built with, whatever the environment
    holds.  When the flag is absent or empty, a non-empty [HETZNER_API_TOKEN]
    is used.  When neither gives a non-empty token, the usage error of the
    argument parser ends the process with exit status 2, before anything is
    sent. *)
Theorem C7_token_resolution :
  forall (cli : Cli) (w : World),
    (forall t,
        cli_token cli = Some t -> t <> "" ->
        main cli w
        = call_func (HetznerCloudManager.init t) (func (parse_args cli)) w) /\
    (cli_token cli = None \/ cli_token cli = Some "" ->
     forall e,
       assoc "HETZNER_API_TOKEN" (environ w) = Some e -> e <> "" ->
       main cli w
       = call_func (HetznerCloudManager.init e) (func (parse_args cli)) w) /\
    (cli_token cli = None \/ cli_token cli = Some "" ->
     assoc "HETZNER_API_TOKEN" (environ w) = None \/
     assoc "HETZNER_API_TOKEN" (environ w) = Some "" ->
     main cli w
     = (Exit 2,
        after w [EStderr "API token is required. Provide it with --token or set HETZNER_API_TOKEN environment variable."]) /\
     exit_status (fst (main cli w)) = 2%Z /\
     requests (trace (snd (main cli w))) = requests (trace w)) /\
    (let w1 :=
       sample_world (ok_response (JObj [])) created_response
         no_content_response [("HETZNER_API_TOKEN", "from-environment")] [] in
     requests (trace (snd (main (mkCli (Some "from-flag") CliList) w1)))
     = [mkRequest "GET" "https://api.hetzner.cloud/v1/servers"
          [("Authorization", "Bearer from-flag");
           ("Content-Type", "application/json")] None] /\
     requests (trace (snd (main (mkCli None CliList) w1)))
     = [mkRequest "GET" "https://api.hetzner.cloud/v1/servers"
          [("Authorization", "Bearer from-environment");
           ("Content-Type", "application/json")] None]).
Proof.
  intros cli w.
  split; [|split; [|split; [|split; reflexivity]]].
  - intros t Hflag Ht. apply main_with_token; [|exact Ht].
    rewrite Hflag. destruct t; [contradiction|reflexivity].
  - intros Hflag e Henv He. apply main_with_token; [|exact He].
    rewrite Henv. now destruct Hflag as [-> | ->].
  - intros Hflag Henv.
    assert (Hrun : main cli w = (Exit 2, after w [EStderr token_required])).
    { apply main_without_token.
      destruct Hflag as [-> | ->], Henv as [-> | ->]; simpl; auto. }
    rewrite Hrun. repeat split.
    simpl. rewrite requests_app. simpl. apply app_nil_r.
Qed.

Lemma C7_token_resolution_witness :
  let cli := mkCli None CliList in
  let w := listing_world (JObj []) in
  (cli_token cli = None /\ assoc "HETZNER_API_TOKEN" (environ w) = None) /\
  exit_status (fst (main cli w)) = 2%Z /\
  requests (trace (snd (main cli w))) = [].
Proof.
  intros cli w.
  split; [split; reflexivity|].
  exact (proj2 (proj1 (proj2 (proj2 (C7_token_resolution cli w)))
                  (or_introl eq_refl) (or_introl eq_refl))).
Defined.

(** Against C7 as stated: with no token on the command line and none in the
    environment, the exit status is not 1. *)
Lemma C7_missing_token_exit_status_is_not_1 :
  exit_status (fst (main (mkCli None CliList) (listing_world (JObj []))))
  <> 1%Z.
Proof. discriminate. Qed.

(** ** The SSH keys of the create subcommand *)

Lemma ssh_key_ids_of_requests (api_manager : HetznerCloudManager.t)
    (args : CreateArgs) (w : World) :
  ssh_keys args <> [] ->
  requests (trace (snd (ssh_key_ids_of api_manager args w)))
  = (requests (trace w) ++ [ssh_keys_request api_manager])%list.
Proof.
  intros Hrefs. unfold ssh_key_ids_of.
  destruct (ssh_keys args) as [|ref refs]; [contradiction|].
  rewrite requests_bind_quiet.
  - apply (perform_requests api_manager ListSshKeys).
  - intros response.
    apply quiet_bind; [auto with quiet|]; intros all.
    apply quiet_bind; [destruct (truthy all); auto with quiet|]; intros _.
    apply quiet_resolve_ssh_keys.
Qed.

Lemma create_server_lists_keys_first (api_manager : HetznerCloudManager.t)
    (args : CreateArgs) (w : World) :
  ssh_keys args <> [] ->
  exists rest,
    requests (trace (snd (create_server api_manager args w)))
    = (requests (trace w) ++ ssh_keys_request api_manager :: rest)%list.
Proof.
  intros Hrefs.
  pose proof (ssh_key_ids_of_requests api_manager args w Hrefs) as Hreq.
  destruct (ssh_key_ids_of api_manager args w) as [[ids|c|e] w1] eqn:Hids;
    simpl in Hreq.
  - eexists. rewrite (create_server_requests _ _ _ _ _ Hids), Hreq.
    now rewrite <- app_assoc.
  - exists []. unfold create_server. now rewrite (bind_Exit _ _ _ _ _ Hids).
  - exists []. unfold create_server. now rewrite (bind_Raise _ _ _ _ _ Hids).
Qed.

(** C9. Whatever the command line of the create subcommand says, the parsed
    list of SSH-key references is not empty: it holds the values of
    [-k/--ssh-keys], of which there is at least one, or else the one default
    reference.  So the subcommand never skips the resolution: the first thing
    it sends is the listing of the SSH keys, and so does [main] once it has a
    token. *)
Theorem C9_ssh_keys_never_empty :
  forall (cli : Cli) (args : CreateArgs),
    func (parse_args cli) = FCreate args ->
    ssh_keys args <> [] /\
    (forall n s i l,
        cli_command cli = CliCreate n s i l None ->
        ssh_keys args = ["hosted-fornet@protonmail.com"]) /\
    (forall (api_manager : HetznerCloudManager.t) (w : World),
        exists rest,
          requests (trace (snd (create_server api_manager args w)))
          = (requests (trace w) ++ ssh_keys_request api_manager :: rest)%list) /\
    (forall (w : World) (t : string),
        or_else (cli_token cli) (assoc "HETZNER_API_TOKEN" (environ w)) = Some t ->
        t <> "" ->
        exists rest,
          requests (trace (snd (main cli w)))
          = (requests (trace w)
               ++ ssh_keys_request (HetznerCloudManager.init t) :: rest)%list).
Proof.
  intros cli args Hfunc.
  assert (Hrefs : ssh_keys args <> []).
  { destruct cli as [t [n s i l [[k1 ks]|]| |]]; simpl in Hfunc;
      try discriminate; injection Hfunc as <-; discriminate. }
  split; [exact Hrefs|]. split; [|split].
  - intros n s i l Hcmd. destruct cli as [t cmd]. simpl in *. subst cmd.
    simpl in Hfunc. now injection Hfunc as <-.
  - intros api_manager w. now apply create_server_lists_keys_first.
  - intros w t Htoken Ht.
    rewrite (main_with_token _ _ _ Htoken Ht), Hfunc. simpl.
    now apply create_server_lists_keys_first.
Qed.

Lemma C9_ssh_keys_never_empty_witness :
  let cli := mkCli (Some "secret") (CliCreate None None None None None) in
  let args := sample_create_args [DEFAULT_SSH_KEY] in
  func (parse_args cli) = FCreate args /\
  ssh_keys args <> [] /\
  exists rest,
    requests (trace (snd (main cli create_world)))
    = (requests (trace create_world)
         ++ ssh_keys_request (HetznerCloudManager.init "secret") :: rest)%list.
Proof.
  intros cli args.
  assert (H : func (parse_args cli) = FCreate args) by reflexivity.
  split; [exact H|].
  split.
  - exact (proj1 (C9_ssh_keys_never_empty cli args H)).
  - apply (proj2 (proj2 (proj2 (C9_ssh_keys_never_empty cli args H)))
             create_world "secret"); [reflexivity|discriminate].
Defined.

(* ################################################################# *)
(** * Further properties *)

(** ** What the subcommands leave alone *)

Lemma extends_by_refl (ok : Event -> Prop) (w : World) : extends_by ok w w.
Proof.
  repeat split. exists []. split; [now rewrite app_nil_r|constructor].
Qed.

Lemma extends_by_trans (ok : Event -> Prop) (w1 w2 w3 : World) :
  extends_by ok w1 w2 -> extends_by ok w2 w3 -> extends_by ok w1 w3.
Proof.
  intros (Hn1 & He1 & Hs1 & ev1 & Ht1 & Hok1) (Hn2 & He2 & Hs2 & ev2 & Ht2 & Hok2).
  repeat split; try congruence.
  exists (ev1 ++ ev2)%list. split.
  - now rewrite Ht2, Ht1, app_assoc.
  - apply Forall_app. now split.
Qed.

Lemma extends_by_emit (ok : Event -> Prop) (e : Event) (w : World) :
  ok e -> extends_by ok w (emit e w).
Proof.
  intros He. repeat split. exists [e]. split; [reflexivity|].
  now constructor.
Qed.

Section OnlyEmits.

Variable ok : Event -> Prop.
Hypothesis ok_print : forall line, ok (EPrint line).
Hypothesis ok_request : forall r, ok (ERequest r).

Lemma only_emits_ret {A} (a : A) : only_emits ok (ret a).
Proof. intro w. apply extends_by_refl. Qed.

Lemma only_emits_lift {A} (o : outcome A) : only_emits ok (lift o).
Proof. intro w. apply extends_by_refl. Qed.

Lemma only_emits_print (line : string) : only_emits ok (print line).
Proof. intro w. apply extends_by_emit, ok_print. Qed.

Lemma only_emits_send (r : Request) : only_emits ok (send r).
Proof.
  intro w. unfold send.
  destruct (net w (requests (trace w)) r); apply extends_by_emit, ok_request.
Qed.

Lemma only_emits_bind {A B} (m : M A) (f : A -> M B) :
  only_emits ok m -> (forall a, only_emits ok (f a)) ->
  only_emits ok (bind m f).
Proof.
  intros Hm Hf w. unfold bind. specialize (Hm w).
  destruct (m w) as [[a|c|e] w1]; simpl in *; try assumption.
  eapply extends_by_trans; [exact Hm|apply Hf].
Qed.

Lemma only_emits_if {A} (b : bool) (m1 m2 : M A) :
  only_emits ok m1 -> only_emits ok m2 -> only_emits ok (if b then m1 else m2).
Proof. now destruct b. Qed.

Lemma only_emits_try_except {A} (body handler : M A) (e : exn) :
  only_emits ok body -> only_emits ok handler ->
  only_emits ok (try_except body e handler).
Proof.
  intros Hb Hh w. unfold try_except. specialize (Hb w).
  destruct (body w) as [[a|c|e'] w1]; simpl in *; try assumption.
  destruct (exn_eqb e e'); simpl; [|assumption].
  eapply extends_by_trans; [exact Hb|apply Hh].
Qed.

Ltac emits_chain :=
  repeat (apply only_emits_bind;
          [first [apply only_emits_lift | apply only_emits_print
                 | apply only_emits_send | apply only_emits_ret]|];
          intros ?);
  first [apply only_emits_lift | apply only_emits_print
        | apply only_emits_send | apply only_emits_ret | idtac].

Lemma only_emits_check_response (resp : Response) (codes : list Z) :
  only_emits ok (HetznerCloudManager._check_response resp codes).
Proof.
  unfold HetznerCloudManager._check_response.
  apply only_emits_if; [|apply only_emits_ret].
  apply only_emits_bind; [|intros _; apply only_emits_lift].
  apply only_emits_try_except; [|apply only_emits_print].
  unfold Response_json. destruct (decoded resp); emits_chain.
Qed.

Lemma only_emits_Response_json (resp : Response) :
  only_emits ok (Response_json resp).
Proof.
  unfold Response_json. destruct (decoded resp);
    [apply only_emits_ret|apply only_emits_lift].
Qed.

Lemma only_emits_perform (self : HetznerCloudManager.t) (op : Operation) :
  only_emits ok (perform self op).
Proof.
  destruct op; simpl;
    unfold HetznerCloudManager.create_server, HetznerCloudManager.delete_server,
      HetznerCloudManager.list_servers, HetznerCloudManager.get_ssh_keys;
    (apply only_emits_bind; [apply only_emits_send|]; intros response);
    (apply only_emits_bind; [apply only_emits_check_response|]; intros _);
    first [apply only_emits_Response_json | apply only_emits_ret].
Qed.

Lemma only_emits_find_ssh_key (ref : string) (keys acc : list json) :
  only_emits ok (find_ssh_key ref keys acc).
Proof.
  induction keys as [|key rest IH]; simpl; [apply only_emits_ret|].
  apply only_emits_bind; [apply only_emits_lift|]; intros n.
  apply only_emits_bind.
  { destruct (str_eq ref n); emits_chain. }
  intros [|]; [|exact IH]. emits_chain.
Qed.

Lemma only_emits_resolve_ssh_keys (refs : list string) (all : json)
    (acc : list json) :
  only_emits ok (resolve_ssh_keys refs all acc).
Proof.
  revert acc; induction refs as [|ref rest IH]; intros acc; simpl;
    [apply only_emits_ret|].
  apply only_emits_bind; [apply only_emits_lift|]; intros keys.
  apply only_emits_bind; [apply only_emits_find_ssh_key|]; intros r.
  apply only_emits_bind; [|intros _; apply IH].
  apply only_emits_if; [apply only_emits_print|apply only_emits_ret].
Qed.

Lemma only_emits_create_server (api_manager : HetznerCloudManager.t)
    (args : CreateArgs) :
  only_emits ok (create_server api_manager args).
Proof.
  unfold create_server.
  apply only_emits_bind.
  { unfold ssh_key_ids_of. destruct (ssh_keys args); [apply only_emits_ret|].
    apply only_emits_bind;
      [apply (only_emits_perform api_manager ListSshKeys)|]; intros response.
    apply only_emits_bind; [apply only_emits_lift|]; intros all.
    apply only_emits_bind; [|intros _; apply only_emits_resolve_ssh_keys].
    apply only_emits_if; [apply only_emits_print|apply only_emits_ret]. }
  intros ids. do 5 (apply only_emits_bind; [apply only_emits_print|]; intros _).
  apply only_emits_bind.
  { apply (only_emits_perform api_manager (CreateServer _ _ _ _ _)). }
  intros response. emits_chain.
Qed.

Lemma only_emits_find_server (identifier : string) (servers : list json) :
  only_emits ok (find_server identifier servers).
Proof.
  induction servers as [|server rest IH]; simpl; [emits_chain|].
  apply only_emits_bind; [apply only_emits_lift|]; intros n.
  destruct (str_eq identifier n); [|exact IH]. emits_chain.
Qed.

Lemma only_emits_resolve_server_id (api_manager : HetznerCloudManager.t)
    (args : DeleteArgs) :
  only_emits ok (resolve_server_id api_manager args).
Proof.
  unfold resolve_server_id. apply only_emits_if; [|apply only_emits_ret].
  apply only_emits_bind;
    [apply (only_emits_perform api_manager ListServers)|]; intros response.
  do 2 (apply only_emits_bind; [apply only_emits_lift|]; intros ?).
  apply only_emits_find_server.
Qed.

Lemma only_emits_delete_and_report (api_manager : HetznerCloudManager.t)
    (sid : string) :
  only_emits ok (delete_and_report api_manager sid).
Proof.
  unfold delete_and_report.
  apply only_emits_bind; [apply only_emits_print|]; intros _.
  apply only_emits_bind;
    [apply (only_emits_perform api_manager (DeleteServer sid))|]; intros _.
  apply only_emits_print.
Qed.

Lemma only_emits_forced_delete (api_manager : HetznerCloudManager.t)
    (args : DeleteArgs) :
  force args = true ->
  only_emits ok (delete_server api_manager args).
Proof.
  intros Hforce. unfold delete_server.
  apply only_emits_bind; [apply only_emits_resolve_server_id|]; intros sid.
  apply only_emits_bind; [|intros _; apply only_emits_delete_and_report].
  unfold confirm_deletion. rewrite Hforce. apply only_emits_ret.
Qed.

Lemma only_emits_print_server_rows (servers : list json) :
  only_emits ok (print_server_rows servers).
Proof.
  induction servers as [|server rest IH]; simpl; [apply only_emits_ret|].
  apply only_emits_bind; [|intros _; exact IH].
  unfold print_server_row. emits_chain.
Qed.

Lemma only_emits_list_servers (api_manager : HetznerCloudManager.t) :
  only_emits ok (list_servers api_manager).
Proof.
  unfold list_servers.
  apply only_emits_bind;
    [apply (only_emits_perform api_manager ListServers)|]; intros response.
  apply only_emits_bind; [apply only_emits_lift|]; intros servers.
  apply only_emits_if; [apply only_emits_print|].
  apply only_emits_bind; [apply only_emits_lift|]; intros n.
  do 3 (apply only_emits_bind; [apply only_emits_print|]; intros _).
  apply only_emits_bind; [apply only_emits_lift|]; intros l.
  apply only_emits_print_server_rows.
Qed.

End OnlyEmits.

(** Only a deletion without [--force] touches standard input.  The create
    and list subcommands, and a forced deletion, whatever the service answers,
    read nothing and ask nothing: the pending input, the environment and the
    service are as they were, and no prompt is among the events they add. *)
Theorem subcommands_never_prompt :
  forall (api_manager : HetznerCloudManager.t) (f : Func) (w : World),
    match f with
    | FDelete args => force args = true
    | FCreate _ | FList => True
    end ->
    stdin (snd (call_func api_manager f w)) = stdin w /\
    environ (snd (call_func api_manager f w)) = environ w /\
    net (snd (call_func api_manager f w)) = net w /\
    exists events,
      trace (snd (call_func api_manager f w)) = (trace w ++ events)%list /\
      forall prompt, ~ In (EPrompt prompt) events.
Proof.
  intros api_manager f w Hf.
  assert (H : extends_by no_prompt w (snd (call_func api_manager f w))).
  { destruct f as [args|args|]; simpl.
    - apply only_emits_create_server; intros; exact I.
    - apply only_emits_forced_delete; [intros; exact I..|exact Hf].
    - apply only_emits_list_servers; intros; exact I. }
  destruct H as (Hn & He & Hs & events & Ht & Hok).
  repeat split; try assumption. exists events. split; [exact Ht|].
  intros prompt Hin. rewrite Forall_forall in Hok. exact (Hok _ Hin).
Qed.

Lemma subcommands_never_prompt_witness :
  let args := mkDeleteArgs "isaac" true in
  let w := delete_world no_content_response ["pending"] in
  force args = true /\
  stdin (snd (call_func sample_manager (FDelete args) w)) = ["pending"].
Proof.
  intros args w.
  assert (H : force args = true) by reflexivity.
  split; [exact H|].
  exact (proj1 (subcommands_never_prompt sample_manager (FDelete args) w H)).
Defined.

(** ** What the subcommands send *)

Lemma list_servers_requests (api_manager : HetznerCloudManager.t) (w : World) :
  requests (trace (snd (list_servers api_manager w)))
  = (requests (trace w) ++ [servers_request api_manager])%list.
Proof.
  unfold list_servers. rewrite requests_bind_quiet.
  - apply (perform_requests api_manager ListServers).
  - intros response.
    apply quiet_bind; [auto with quiet|]; intros servers.
    apply quiet_if; [auto with quiet|].
    repeat (apply quiet_bind; [auto with quiet|]; intros ?).
    apply quiet_print_server_rows.
Qed.

Lemma create_server_request_shape (api_manager : HetznerCloudManager.t)
    (args : CreateArgs) (w : World) :
  exists posts,
    requests (trace (snd (create_server api_manager args w)))
    = (requests (trace w)
         ++ match ssh_keys args with
            | [] => []
            | _ :: _ => [ssh_keys_request api_manager]
            end
         ++ posts)%list /\
    (posts = [] \/ exists payload, posts = [creation_request api_manager payload]) /\
    (ssh_keys args = [] -> posts <> []).
Proof.
  destruct (ssh_keys args) as [|ref refs] eqn:Hrefs.
  - assert (Hids : ssh_key_ids_of api_manager args w = (Ret [], w)).
    { unfold ssh_key_ids_of. now rewrite Hrefs. }
    eexists. split; [apply (create_server_requests _ _ _ _ _ Hids)|].
    split; [right; eexists; reflexivity|discriminate].
  - assert (Hne : ssh_keys args <> []) by (rewrite Hrefs; discriminate).
    pose proof (ssh_key_ids_of_requests api_manager args w Hne) as Hreq.
    destruct (ssh_key_ids_of api_manager args w) as [[ids|c|e] w1] eqn:Hids;
      simpl in Hreq.
    + eexists. split; [|split; [right; eexists; reflexivity|discriminate]].
      rewrite (create_server_requests _ _ _ _ _ Hids), Hreq.
      now rewrite <- app_assoc.
    + exists []. split; [|split; [now left|discriminate]].
      unfold create_server. now rewrite (bind_Exit _ _ _ _ _ Hids).
    + exists []. split; [|split; [now left|discriminate]].
      unfold create_server. now rewrite (bind_Raise _ _ _ _ _ Hids).
Qed.

Lemma delete_server_request_shape (api_manager : HetznerCloudManager.t)
    (args : DeleteArgs) (w : World) :
  exists dels,
    requests (trace (snd (delete_server api_manager args w)))
    = (requests (trace w)
         ++ (if isdigit (server_id args) then []
             else [servers_request api_manager])
         ++ dels)%list /\
    (dels = [] \/ exists sid, dels = [deletion_request api_manager sid]) /\
    (isdigit (server_id args) = true ->
     dels = [] \/ dels = [deletion_request api_manager (server_id args)]).
Proof.
  pose proof (resolve_server_id_requests api_manager args w) as Hreq.
  destruct (resolve_server_id api_manager args w) as [[sid|c|e] w1] eqn:Hid;
    simpl in Hreq.
  - exists (match fst (confirm_deletion args sid w1) with
            | Ret _ => [deletion_request api_manager sid]
            | _ => []
            end).
    split; [|split].
    + rewrite (delete_server_requests _ _ _ _ _ Hid), Hreq.
      now rewrite <- app_assoc.
    + destruct (fst (confirm_deletion args sid w1)); [right; now exists sid|now left..].
    + intros Hdigit.
      rewrite (resolve_server_id_digits _ _ _ Hdigit) in Hid.
      injection Hid as <- <-.
      destruct (fst (confirm_deletion args (server_id args) w)); auto.
  - exists []. split; [|split; [now left|now left]].
    unfold delete_server. rewrite (bind_Exit _ _ _ _ _ Hid). simpl.
    now rewrite Hreq, app_nil_r.
  - exists []. split; [|split; [now left|now left]].
    unfold delete_server. rewrite (bind_Raise _ _ _ _ _ Hid). simpl.
    now rewrite Hreq, app_nil_r.
Qed.

(** Whatever the service answers and the user types, a subcommand sends at
    most two requests, all built with the client's headers on the fixed base
    URL: list sends its one listing; create sends the listing of the SSH keys
    (when it has references) and then at most one creation; delete sends the
    listing of the servers (when the identifier is not numeric) and then at
    most one deletion, which for a numeric identifier is the deletion of that
    identifier.  Nothing is sent after the creation or the deletion. *)
Theorem subcommand_request_shapes :
  forall (api_manager : HetznerCloudManager.t) (f : Func) (w : World),
    exists sent,
      requests (trace (snd (call_func api_manager f w)))
      = (requests (trace w) ++ sent)%list /\
      match f with
      | FList => sent = [servers_request api_manager]
      | FCreate args =>
          exists posts,
            sent = (match ssh_keys args with
                    | [] => []
                    | _ :: _ => [ssh_keys_request api_manager]
                    end ++ posts)%list /\
            (posts = [] \/
             exists payload, posts = [creation_request api_manager payload]) /\
            (ssh_keys args = [] -> posts <> [])
      | FDelete args =>
          exists dels,
            sent = ((if isdigit (server_id args) then []
                     else [servers_request api_manager]) ++ dels)%list /\
            (dels = [] \/ exists sid, dels = [deletion_request api_manager sid]) /\
            (isdigit (server_id args) = true ->
             dels = [] \/
             dels = [deletion_request api_manager (server_id args)])
      end.
Proof.
  intros api_manager [args|args|] w; simpl.
  - destruct (create_server_request_shape api_manager args w)
      as (posts & Hreq & Hposts).
    eexists. split; [exact Hreq|]. now exists posts.
  - destruct (delete_server_request_shape api_manager args w)
      as (dels & Hreq & Hdels).
    eexists. split; [exact Hreq|]. now exists dels.
  - eexists. split; [apply list_servers_requests|reflexivity].
Qed.

(** ** The report of a creation *)

Lemma get_obj (kvs : list (string * json)) (k : string) (default : json) :
  get (JObj kvs) k default = Ret (or_default (lookup k kvs) default).
Proof. unfold get. now destruct (lookup k kvs). Qed.

(** Once the key IDs are resolved and the service accepts the creation with
    a body that is an object whose ["server"], the ["public_net"] of that
    server, and the ["ipv4"] and ["ipv6"] of that network are each absent or
    an object, the subcommand returns normally after printing the
    configuration, sending the creation, and reporting: the ID of the server
    ([None] when the body has none), its IPv4 and IPv6 addresses or
    [Not assigned], the root password or the note that SSH keys are in use,
    and the [ssh] command line with the IPv4 address.  (A ["server"] or an
    ["ipv4"] that is present and [null] is neither: see
    [create_server_null_server].) *)
Theorem create_server_report :
  forall (api_manager : HetznerCloudManager.t) (args : CreateArgs)
         (w0 w : World) (ids : list json) (resp : Response)
         (kvs server public_net ipv4 ipv6 : list (string * json)),
    ssh_key_ids_of api_manager args w0 = (Ret ids, w) ->
    answers w
      (creation_request api_manager
         (spec_payload (name args) (server_type args) (image args)
            (location args) ids)) resp ->
    In (status_code resp) [200%Z; 201%Z] ->
    decoded resp = Some (JObj kvs) ->
    nested kvs "server" = Some server ->
    nested server "public_net" = Some public_net ->
    nested public_net "ipv4" = Some ipv4 ->
    nested public_net "ipv6" = Some ipv6 ->
    let address4 := str (or_default (lookup "ip" ipv4) (JStr "Not assigned")) in
    let address6 := str (or_default (lookup "ip" ipv6) (JStr "Not assigned")) in
    create_server api_manager args w0
    = (Ret tt,
       after w
         (map EPrint
            [nl ++ "Creating Hetzner Cloud VPS with the following configuration:";
             "Server Name: " ++ name args;
             "Server Type: " ++ server_type args;
             "Image: " ++ image args;
             "Location: " ++ location args]%string
          ++ ERequest
               (creation_request api_manager
                  (spec_payload (name args) (server_type args) (image args)
                     (location args) ids))
          :: map EPrint
               [nl ++ "Server created successfully!";
                "Server ID: " ++ str (or_default (lookup "id" server) JNull);
                "IPv4: " ++ address4;
                "IPv6: " ++ address6;
                "Root Password: "
                  ++ str (or_default (lookup "root_password" kvs)
                            (JStr "Not provided (using SSH key)"));
                nl ++ "Your server is now being provisioned. It may take a few minutes to be fully ready.";
                "You can connect to your server using SSH: ssh root@"
                  ++ address4]%string)%list).
Proof.
  intros api_manager args w0 w ids resp kvs server public_net ipv4 ipv6
    Hids Hnet Hcode Hbody Hserver Hpn Hv4 Hv6 address4 address6.
  unfold create_server. rewrite (bind_Ret _ _ _ _ _ Hids).
  do 5 run_print.
  match goal with
  | |- context [after w ?events] =>
      apply (answers_after w events) in Hnet; [|reflexivity]
  end.
  rewrite <- create_data_spec in Hnet.
  pose proof (perform_ok api_manager
                (CreateServer (name args) (server_type args) (image args)
                   (location args)
                   (match ids with [] => None | _ :: _ => Some ids end))
                resp _ Hnet (proj2 (not_in_false _ _) Hcode)) as Hpost.
  simpl in Hpost. rewrite Hbody in Hpost.
  rewrite (bind_Ret _ _ _ _ _ Hpost), after_after, create_data_spec.
  apply get_nested in Hserver, Hpn, Hv4, Hv6.
  rewrite Hserver; unfold bind at 1, lift.
  rewrite (get_obj server "id"); unfold bind at 1.
  rewrite Hpn; unfold bind at 1.
  rewrite Hv4; unfold bind at 1.
  rewrite (get_obj ipv4 "ip"); unfold bind at 1.
  unfold bind at 1.
  rewrite Hv6; unfold bind at 1.
  rewrite (get_obj ipv6 "ip"); unfold bind at 1.
  rewrite (get_obj kvs "root_password"); unfold bind at 1.
  do 6 run_print. rewrite print_after, after_after.
  reflexivity.
Qed.

(** An accepted creation whose body has ["server"] present and [null]: the
    creation is sent, then [.get] on [None] raises, and nothing is
    reported. *)
Example create_server_null_server :
  let resp := mkResponse 201 "" (Some (JObj [("server", JNull)])) in
  let w := sample_world (ok_response sample_keys_body) resp
             no_content_response [] [] in
  let run := create_server sample_manager (sample_create_args ["a"]) w in
  fst run = Raise AttributeError /\
  List.length (requests (trace (snd run))) = 2 /\
  ~ In (nl ++ "Server created successfully!")%string (printed (trace (snd run))).
Proof.
  intros resp w run. split; [reflexivity|]. split; [reflexivity|].
  vm_compute. intros H.
  repeat (destruct H as [H|H]; [discriminate H|]). exact H.
Qed.

Lemma create_server_report_witness :
  let args := sample_create_args ["a"] in
  let w := snd (ssh_key_ids_of sample_manager args create_world) in
  (ssh_key_ids_of sample_manager args create_world = (Ret [JInt 1], w) /\
   In (status_code created_response) [200%Z; 201%Z]) /\
  printed (trace (snd (create_server sample_manager args create_world)))
  = (printed (trace w)
       ++ [nl ++ "Creating Hetzner Cloud VPS with the following configuration:";
           "Server Name: isaac";
           "Server Type: cax41";
           "Image: ubuntu-24.04";
           "Location: nbg1";
           nl ++ "Server created successfully!";
           "Server ID: 7";
           "IPv4: 203.0.113.5";
           "IPv6: Not assigned";
           "Root Password: Not provided (using SSH key)";
           nl ++ "Your server is now being provisioned. It may take a few minutes to be fully ready.";
           "You can connect to your server using SSH: ssh root@203.0.113.5"]%string)%list.
Proof.
  intros args w.
  assert (H1 : ssh_key_ids_of sample_manager args create_world
               = (Ret [JInt 1], w)) by reflexivity.
  assert (H2 : In (status_code created_response) [200%Z; 201%Z])
    by (right; left; reflexivity).
  split; [split; assumption|].
  rewrite (create_server_report sample_manager args create_world w [JInt 1]
             created_response _ _ _ _ [] H1 eq_refl H2 eq_refl eq_refl eq_refl
             eq_refl eq_refl).
  reflexivity.
Defined.

(** ** Creation: the edges of the key resolution *)

(** When the listing of the SSH keys is refused, the creation is given up:
    the subcommand ends with a non-zero exit status having sent the listing
    only, and printed the error report only. *)
Theorem create_server_aborts_on_refused_listing :
  forall (api_manager : HetznerCloudManager.t) (args : CreateArgs) (w : World)
         (resp : Response),
    ssh_keys args <> [] ->
    answers w (ssh_keys_request api_manager) resp ->
    ~ In (status_code resp) [200%Z; 201%Z] ->
    exists (o : outcome unit) (w' : World),
      create_server api_manager args w = (o, w') /\
      exit_status o = 1%Z /\
      requests (trace w')
      = (requests (trace w) ++ [ssh_keys_request api_manager])%list /\
      printed (trace w')
      = (printed (trace w)
           ++ match error_report resp with
              | Some line => [line]
              | None => []
              end)%list.
Proof.
  intros api_manager args w resp Hrefs Hnet Hcode.
  apply not_in_true in Hcode.
  pose proof (perform_fail api_manager ListSshKeys resp w Hnet Hcode) as Hget.
  simpl in Hget.
  exists (error_outcome resp),
    (after w (ERequest (ssh_keys_request api_manager) :: error_events resp)).
  split.
  - unfold create_server, ssh_key_ids_of.
    destruct (ssh_keys args); [contradiction|].
    apply bind_error_outcome, bind_error_outcome. exact Hget.
  - split; [apply exit_status_error_outcome|].
    simpl. rewrite requests_app, printed_app. simpl.
    rewrite requests_error_events. split; [reflexivity|].
    unfold error_events. now destruct (error_report resp).
Qed.

Lemma create_server_aborts_on_refused_listing_witness :
  let args := sample_create_args ["a"] in
  let w := sample_world not_found_response created_response
             no_content_response [] [] in
  (ssh_keys args <> [] /\
   answers w (ssh_keys_request sample_manager) not_found_response /\
   ~ In (status_code not_found_response) [200%Z; 201%Z]) /\
  exists (o : outcome unit) (w' : World),
    create_server sample_manager args w = (o, w') /\
    exit_status o = 1%Z /\
    requests (trace w') = [ssh_keys_request sample_manager] /\
    printed (trace w') = ["Error: server not found"].
Proof.
  intros args w.
  assert (H1 : ssh_keys args <> []) by discriminate.
  assert (H2 : answers w (ssh_keys_request sample_manager) not_found_response)
    by reflexivity.
  assert (H3 : ~ In (status_code not_found_response) [200%Z; 201%Z]).
  { simpl. intros [H|[H|[]]]; discriminate H. }
  split; [repeat split; assumption|].
  exact (create_server_aborts_on_refused_listing sample_manager args w
           not_found_response H1 H2 H3).
Defined.

(** Called with an empty list of references, the subcommand asks the service
    for no key: it sends the creation alone, without ["ssh_keys"]. *)
Theorem create_server_without_references :
  forall (api_manager : HetznerCloudManager.t) (args : CreateArgs) (w : World),
    ssh_keys args = [] ->
    ssh_key_ids_of api_manager args w = (Ret [], w) /\
    requests (trace (snd (create_server api_manager args w)))
    = (requests (trace w)
         ++ [creation_request api_manager
               [("name", JStr (name args));
                ("server_type", JStr (server_type args));
                ("image", JStr (image args));
                ("location", JStr (location args));
                ("public_net",
                 JObj [("enable_ipv4", JBool true);
                       ("enable_ipv6", JBool true)])]])%list.
Proof.
  intros api_manager args w Hrefs.
  assert (Hids : ssh_key_ids_of api_manager args w = (Ret [], w)).
  { unfold ssh_key_ids_of. now rewrite Hrefs. }
  split; [exact Hids|apply (create_server_requests _ _ _ _ _ Hids)].
Qed.

Lemma create_server_without_references_witness :
  let args := sample_create_args [] in
  ssh_keys args = [] /\
  requests (trace (snd (create_server sample_manager args create_world)))
  = [creation_request sample_manager
       [("name", JStr "isaac");
        ("server_type", JStr "cax41");
        ("image", JStr "ubuntu-24.04");
        ("location", JStr "nbg1");
        ("public_net",
         JObj [("enable_ipv4", JBool true); ("enable_ipv6", JBool true)])]].
Proof.
  intro args. split; [reflexivity|].
  exact (proj2 (create_server_without_references sample_manager args
                  create_world eq_refl)).
Defined.

Lemma resolved_ids_no_keys (refs : list string) : resolved_ids refs [] = [].
Proof. unfold resolved_ids. induction refs; simpl; auto. Qed.

(** When the account lists no SSH key (the body has no ["ssh_keys"], or an
    empty list), every reference gets its warning, no heading is printed, and
    the server is created all the same, without ["ssh_keys"]. *)
Theorem create_server_account_without_keys :
  forall (api_manager : HetznerCloudManager.t) (args : CreateArgs) (w : World)
         (resp : Response) (kvs : list (string * json)),
    ssh_keys args <> [] ->
    answers w (ssh_keys_request api_manager) resp ->
    In (status_code resp) [200%Z; 201%Z] ->
    decoded resp = Some (JObj kvs) ->
    lookup "ssh_keys" kvs = None \/ lookup "ssh_keys" kvs = Some (JArr []) ->
    ssh_key_ids_of api_manager args w
    = (Ret [],
       after w
         (ERequest (ssh_keys_request api_manager)
            :: map EPrint
                 (map (fun ref =>
                         "Warning: SSH key '" ++ ref ++ "' not found. Skipping.")%string
                    (ssh_keys args)))) /\
    requests (trace (snd (create_server api_manager args w)))
    = (requests (trace w)
         ++ [ssh_keys_request api_manager;
             creation_request api_manager
               [("name", JStr (name args));
                ("server_type", JStr (server_type args));
                ("image", JStr (image args));
                ("location", JStr (location args));
                ("public_net",
                 JObj [("enable_ipv4", JBool true);
                       ("enable_ipv6", JBool true)])]])%list.
Proof.
  intros api_manager args w resp kvs Hrefs Hnet Hcode Hbody Hkeys.
  assert (Hids : ssh_key_ids_of api_manager args w
                 = (Ret [],
                    after w
                      (ERequest (ssh_keys_request api_manager)
                         :: map EPrint
                              (map (fun ref =>
                                      "Warning: SSH key '" ++ ref
                                        ++ "' not found. Skipping.")%string
                                 (ssh_keys args))))).
  { unfold ssh_key_ids_of.
    destruct (ssh_keys args) as [|ref refs] eqn:Hargs; [contradiction|].
    pose proof (perform_ok api_manager ListSshKeys resp w Hnet
                  (proj2 (not_in_false _ _) Hcode)) as Hget.
    simpl in Hget. rewrite Hbody in Hget.
    rewrite (bind_Ret _ _ _ _ _ Hget).
    unfold bind at 1, lift, get.
    assert (Hall : match lookup "ssh_keys" kvs with
                   | Some v => @Ret json v
                   | None => Ret (JArr [])
                   end = Ret (JArr [])) by now destruct Hkeys as [-> | ->].
    rewrite Hall. simpl truthy. cbv iota. unfold bind at 1, ret.
    rewrite (resolve_ssh_keys_spec _ [] [] _ _ eq_refl).
    now rewrite resolved_ids_no_keys, after_after. }
  split; [exact Hids|].
  rewrite (create_server_requests _ _ _ _ _ Hids). simpl.
  rewrite requests_app. simpl. rewrite requests_map_EPrint.
  now rewrite <- app_assoc.
Qed.

Lemma create_server_account_without_keys_witness :
  let args := sample_create_args ["a"; "b"] in
  let w := sample_world (ok_response (JObj [])) created_response
             no_content_response [] [] in
  (ssh_keys args <> [] /\
   answers w (ssh_keys_request sample_manager) (ok_response (JObj [])) /\
   In (status_code (ok_response (JObj []))) [200%Z; 201%Z]) /\
  printed (trace (snd (ssh_key_ids_of sample_manager args w)))
  = ["Warning: SSH key 'a' not found. Skipping.";
     "Warning: SSH key 'b' not found. Skipping."].
Proof.
  intros args w.
  assert (H1 : ssh_keys args <> []) by discriminate.
  assert (H2 : answers w (ssh_keys_request sample_manager)
                 (ok_response (JObj []))) by reflexivity.
  assert (H3 : In (status_code (ok_response (JObj []))) [200%Z; 201%Z])
    by (left; reflexivity).
  split; [repeat split; assumption|].
  rewrite (proj1 (create_server_account_without_keys sample_manager args w
                    (ok_response (JObj [])) [] H1 H2 H3 eq_refl
                    (or_introl eq_refl))).
  reflexivity.
Defined.

(** ** Accepted answers that are not JSON *)

(** An accepted answer whose body is not JSON: the creation and the two
    listings raise [JSONDecodeError], which nobody catches, so the process
    ends with status 1 and no error line, after its one request; the deletion
    never reads the body and returns. *)
Theorem accepted_answer_without_json :
  forall (self : HetznerCloudManager.t) (op : Operation) (w : World)
         (resp : Response),
    answers w (request_of self op) resp ->
    In (status_code resp) (success_codes_of op) ->
    decoded resp = None ->
    perform self op w
    = (match op with
       | DeleteServer server_id =>
           Ret (JObj [("status", JStr "deleted"); ("server_id", JStr server_id)])
       | _ => Raise JSONDecodeError
       end,
       after w [ERequest (request_of self op)]) /\
    printed (trace (snd (perform self op w))) = printed (trace w).
Proof.
  intros self op w resp Hnet Hcode Hbody.
  rewrite (perform_ok self op resp w Hnet (proj2 (not_in_false _ _) Hcode)).
  unfold result_of. rewrite Hbody. split.
  - now destruct op.
  - simpl. rewrite printed_app. simpl. apply app_nil_r.
Qed.

Lemma accepted_answer_without_json_witness :
  let resp := mkResponse 200 "<html>Bad gateway</html>" None in
  let w := sample_world resp resp resp [] [] in
  (answers w (request_of sample_manager ListServers) resp /\
   In (status_code resp) (success_codes_of ListServers) /\
   decoded resp = None) /\
  exit_status (fst (list_servers sample_manager w)) = 1%Z /\
  printed (trace (snd (list_servers sample_manager w))) = [].
Proof.
  intros resp w.
  assert (H1 : answers w (request_of sample_manager ListServers) resp)
    by reflexivity.
  assert (H2 : In (status_code resp) (success_codes_of ListServers))
    by (left; reflexivity).
  assert (H3 : decoded resp = None) by reflexivity.
  split; [repeat split; assumption|].
  pose proof (proj1 (accepted_answer_without_json sample_manager ListServers w
                       resp H1 H2 H3)) as Hrun.
  simpl in Hrun. unfold list_servers.
  rewrite (bind_Raise _ _ _ _ _ Hrun). split; reflexivity.
Defined.

(** ** Deletion: the confirmation *)

(** Asked to confirm when standard input is exhausted, the subcommand raises
    [EOFError] after the prompt: the process ends with status 1 and the
    deletion is not sent. *)
Theorem delete_server_at_end_of_input :
  forall (api_manager : HetznerCloudManager.t) (args : DeleteArgs)
         (w0 w : World) (sid : string),
    force args = false ->
    resolve_server_id api_manager args w0 = (Ret sid, w) ->
    stdin w = [] ->
    delete_server api_manager args w0
    = (Raise EOFError,
       after w [EPrompt ("Are you sure you want to delete server ID " ++ sid
                           ++ "? [y/N]: ")]) /\
    exit_status (fst (delete_server api_manager args w0)) = 1%Z /\
    requests (trace (snd (delete_server api_manager args w0)))
    = requests (trace w).
Proof.
  intros api_manager args w0 w sid Hforce Hid Hin.
  assert (Hrun : delete_server api_manager args w0
                 = (Raise EOFError,
                    after w [EPrompt (confirmation_prompt sid)])).
  { unfold delete_server. rewrite (bind_Ret _ _ _ _ _ Hid).
    apply bind_Raise. unfold confirm_deletion. rewrite Hforce. cbn [negb].
    apply bind_Raise. unfold input. now rewrite Hin. }
  rewrite Hrun. repeat split.
  simpl. rewrite requests_app. simpl. apply app_nil_r.
Qed.

Lemma delete_server_at_end_of_input_witness :
  let args := mkDeleteArgs "456" false in
  let w := delete_world no_content_response [] in
  (force args = false /\
   resolve_server_id sample_manager args w = (Ret "456", w) /\
   stdin w = []) /\
  exit_status (fst (delete_server sample_manager args w)) = 1%Z /\
  requests (trace (snd (delete_server sample_manager args w))) = [].
Proof.
  intros args w.
  assert (H1 : force args = false) by reflexivity.
  assert (H2 : resolve_server_id sample_manager args w = (Ret "456", w))
    by reflexivity.
  assert (H3 : stdin w = []) by reflexivity.
  split; [repeat split; assumption|].
  exact (proj2 (delete_server_at_end_of_input sample_manager args w w "456"
                  H1 H2 H3)).
Defined.

Lemma lower_char_y (c : ascii) :
  lower_char c = "y"%char -> c = "y"%char \/ c = "Y"%char.
Proof.
  destruct c as [[] [] [] [] [] [] [] []]; vm_compute; intros H;
    solve [discriminate H | auto].
Qed.

Lemma lower_char_e (c : ascii) :
  lower_char c = "e"%char -> c = "e"%char \/ c = "E"%char.
Proof.
  destruct c as [[] [] [] [] [] [] [] []]; vm_compute; intros H;
    solve [discriminate H | auto].
Qed.

Lemma lower_char_s (c : ascii) :
  lower_char c = "s"%char -> c = "s"%char \/ c = "S"%char.
Proof.
  destruct c as [[] [] [] [] [] [] [] []]; vm_compute; intros H;
    solve [discriminate H | auto].
Qed.

(** The lines that confirm a deletion are ten: [y] and [yes] in any mix of
    cases, and nothing else; the answer is not trimmed, so a space before or
    after declines. *)
Theorem confirmation_lines :
  forall line : string,
    declined line = false <-> In line confirmations.
Proof.
  intros line. split.
  - intros H. apply declined_false in H. unfold lower in H.
    destruct H as [H|H].
    + destruct line as [|c1 [|c2 rest]]; simpl in H; try discriminate H.
      injection H as H1. apply lower_char_y in H1 as [-> | ->];
        unfold confirmations; simpl; auto.
    + destruct line as [|c1 [|c2 [|c3 [|c4 rest]]]]; simpl in H;
        try discriminate H.
      injection H as H1 H2 H3.
      apply lower_char_y in H1 as [-> | ->];
        apply lower_char_e in H2 as [-> | ->];
        apply lower_char_s in H3 as [-> | ->];
        unfold confirmations; simpl; auto 12.
  - unfold confirmations. simpl.
    intros H. repeat (destruct H as [<- | H]; [reflexivity|]). destruct H.
Qed.

Lemma confirmation_lines_witness :
  In "yEs" confirmations /\ declined "yEs" = false.
Proof.
  assert (H : In "yEs" confirmations) by (unfold confirmations; simpl; auto 12).
  split; [exact H|].
  exact (proj2 (confirmation_lines "yEs") H).
Defined.

(** ** Deletion: the identifier and the lookup *)

Lemma digits_of_uint (d : Decimal.uint) :
  forallb isdigit_char (chars (NilEmpty.string_of_uint d)) = true.
Proof.
  induction d; cbn [NilEmpty.string_of_uint chars forallb];
    try rewrite IHd; reflexivity.
Qed.

Lemma isdigit_str_of_Z (z : Z) : isdigit (str_of_Z z) = (0 <=? z)%Z.
Proof.
  destruct z as [|p|p]; [reflexivity| |].
  - unfold str_of_Z. cbn [Z.to_int NilZero.string_of_int].
    unfold NilZero.string_of_uint.
    pose proof (digits_of_uint (Pos.to_uint p)) as H.
    destruct (Pos.to_uint p); try exact H; reflexivity.
  - unfold str_of_Z. cbn [Z.to_int NilZero.string_of_int]. reflexivity.
Qed.

(** The ID a name resolves to is itself a numeric identifier: given back to
    the subcommand, it is taken as it stands, with no listing, in any
    world. *)
Theorem resolved_id_is_numeric :
  forall (api_manager : HetznerCloudManager.t) (args : DeleteArgs) (w : World)
         (resp : Response) (kvs : list (string * json)) (js : list json)
         (servers : list Named) (s : Named),
    isdigit (server_id args) = false ->
    answers w (servers_request api_manager) resp ->
    In (status_code resp) [200%Z; 201%Z] ->
    decoded resp = Some (JObj kvs) ->
    lookup "servers" kvs = Some (JArr js) ->
    map named_view js = map Some servers ->
    first_server (server_id args) servers = Some s ->
    (0 <= id_of s)%Z ->
    exists sid,
      fst (resolve_server_id api_manager args w) = Ret sid /\
      forall (f : bool) (w' : World),
        resolve_server_id api_manager (mkDeleteArgs sid f) w' = (Ret sid, w').
Proof.
  intros api_manager args w resp kvs js servers s
    Hname Hnet Hcode Hbody Hservers Hview Hs Hid.
  exists (str_of_Z (id_of s)). split.
  - rewrite (resolve_server_id_named _ _ _ _ _ _ _ Hname Hnet Hcode Hbody
               Hservers Hview), Hs.
    reflexivity.
  - intros f w'. apply resolve_server_id_digits. simpl.
    rewrite isdigit_str_of_Z. now apply Z.leb_le.
Qed.

Lemma resolved_id_is_numeric_witness :
  let args := mkDeleteArgs "isaac" true in
  let w := delete_world no_content_response [] in
  (isdigit (server_id args) = false /\
   answers w (servers_request sample_manager) (ok_response sample_servers_body) /\
   first_server (server_id args) [mkNamed 123 "isaac"]
   = Some (mkNamed 123 "isaac") /\
   (0 <= 123)%Z) /\
  exists sid,
    fst (resolve_server_id sample_manager args w) = Ret sid /\
    forall (f : bool) (w' : World),
      resolve_server_id sample_manager (mkDeleteArgs sid f) w' = (Ret sid, w').
Proof.
  intros args w.
  assert (H1 : isdigit (server_id args) = false) by reflexivity.
  assert (H2 : answers w (servers_request sample_manager)
                 (ok_response sample_servers_body)) by reflexivity.
  assert (H3 : first_server (server_id args) [mkNamed 123 "isaac"]
               = Some (mkNamed 123 "isaac")) by reflexivity.
  assert (H4 : (0 <= 123)%Z) by lia.
  split; [repeat split; assumption|].
  exact (resolved_id_is_numeric sample_manager args w
           (ok_response sample_servers_body) _ _ [mkNamed 123 "isaac"]
           (mkNamed 123 "isaac") H1 H2 (or_introl eq_refl) eq_refl eq_refl
           eq_refl H3 H4).
Defined.

Lemma find_server_passes (identifier : string) (pre rest : list json)
    (w : World) :
  Forall (passed_over identifier) pre ->
  find_server identifier (pre ++ rest) w = find_server identifier rest w.
Proof.
  induction 1 as [|j pre (n & Hn & Hneq) _ IH]; [reflexivity|].
  simpl. unfold bind at 1, lift.
  destruct j as [| | | | |kvs]; simpl in Hn; try discriminate Hn.
  unfold getitem. rewrite Hn, Hneq. exact IH.
Qed.

Lemma servers_listed (api_manager : HetznerCloudManager.t) (args : DeleteArgs)
    (w : World) (resp : Response) (kvs : list (string * json))
    (js : list json) :
  isdigit (server_id args) = false ->
  answers w (servers_request api_manager) resp ->
  In (status_code resp) [200%Z; 201%Z] ->
  decoded resp = Some (JObj kvs) ->
  lookup "servers" kvs = Some (JArr js) ->
  resolve_server_id api_manager args w
  = find_server (server_id args) js
      (after w [ERequest (servers_request api_manager)]).
Proof.
  intros Hdigit Hnet Hcode Hbody Hservers.
  unfold resolve_server_id. rewrite Hdigit. cbn [negb].
  pose proof (perform_ok api_manager ListServers resp w Hnet
                (proj2 (not_in_false _ _) Hcode)) as Hget.
  simpl in Hget. rewrite Hbody in Hget.
  rewrite (bind_Ret _ _ _ _ _ Hget).
  unfold bind at 1, lift, get. rewrite Hservers.
  reflexivity.
Qed.

(** The lookup of a name reads the listing no further than the first entry
    with that name: the entries before it need a name and nothing else, the
    entry itself gives its ["id"], whatever JSON it is, as [str] writes it,
    and the entries after it are not looked at, well formed or not. *)
Theorem lookup_stops_at_first_match :
  forall (api_manager : HetznerCloudManager.t) (args : DeleteArgs) (w : World)
         (resp : Response) (kvs hit : list (string * json))
         (pre post : list json) (id : json),
    isdigit (server_id args) = false ->
    answers w (servers_request api_manager) resp ->
    In (status_code resp) [200%Z; 201%Z] ->
    decoded resp = Some (JObj kvs) ->
    lookup "servers" kvs = Some (JArr (pre ++ JObj hit :: post)) ->
    Forall (passed_over (server_id args)) pre ->
    lookup "name" hit = Some (JStr (server_id args)) ->
    lookup "id" hit = Some id ->
    resolve_server_id api_manager args w
    = (Ret (str id),
       after w [ERequest (servers_request api_manager);
                EPrint ("Found server '" ++ server_id args ++ "' with ID: "
                          ++ str id)]).
Proof.
  intros api_manager args w resp kvs hit pre post id
    Hdigit Hnet Hcode Hbody Hservers Hpre Hname Hid.
  rewrite (servers_listed _ _ _ _ _ _ Hdigit Hnet Hcode Hbody Hservers).
  rewrite (find_server_passes _ _ _ _ Hpre).
  simpl. unfold bind at 1, lift. rewrite Hname. simpl.
  rewrite String.eqb_refl. unfold bind at 1. rewrite Hid.
  run_print. reflexivity.
Qed.

Lemma lookup_stops_at_first_match_witness :
  let args := mkDeleteArgs "isaac" true in
  let body :=
    JObj [("servers",
           JArr [JObj [("name", JStr "other")];
                 JObj [("id", JInt 123); ("name", JStr "isaac")];
                 JNull])] in
  let w := listing_world body in
  (isdigit (server_id args) = false /\
   answers w (servers_request sample_manager) (ok_response body) /\
   Forall (passed_over (server_id args)) [JObj [("name", JStr "other")]]) /\
  fst (resolve_server_id sample_manager args w) = Ret "123".
Proof.
  intros args body w.
  assert (H1 : isdigit (server_id args) = false) by reflexivity.
  assert (H2 : answers w (servers_request sample_manager) (ok_response body))
    by reflexivity.
  assert (H3 : Forall (passed_over (server_id args))
                 [JObj [("name", JStr "other")]]).
  { constructor; [|constructor]. exists (JStr "other"). split; reflexivity. }
  split; [repeat split; assumption|].
  rewrite (lookup_stops_at_first_match sample_manager args w (ok_response body)
             _ [("id", JInt 123); ("name", JStr "isaac")]
             [JObj [("name", JStr "other")]] [JNull] (JInt 123)
             H1 H2 (or_introl eq_refl) eq_refl eq_refl H3 eq_refl eq_refl).
  reflexivity.
Defined.

(** An entry without a name, met before any entry with the name looked for,
    ends the lookup with an exception ([KeyError] for an object, [TypeError]
    for anything else): the process ends with status 1, nothing is printed
    and no deletion is sent. *)
Theorem lookup_fails_on_nameless_entry :
  forall (api_manager : HetznerCloudManager.t) (args : DeleteArgs) (w : World)
         (resp : Response) (kvs : list (string * json))
         (pre post : list json) (bad : json),
    isdigit (server_id args) = false ->
    answers w (servers_request api_manager) resp ->
    In (status_code resp) [200%Z; 201%Z] ->
    decoded resp = Some (JObj kvs) ->
    lookup "servers" kvs = Some (JArr (pre ++ bad :: post)) ->
    Forall (passed_over (server_id args)) pre ->
    name_field bad = None ->
    delete_server api_manager args w
    = (Raise (match bad with JObj _ => KeyError | _ => TypeError end),
       after w [ERequest (servers_request api_manager)]).
Proof.
  intros api_manager args w resp kvs pre post bad
    Hdigit Hnet Hcode Hbody Hservers Hpre Hbad.
  unfold delete_server. apply bind_Raise.
  rewrite (servers_listed _ _ _ _ _ _ Hdigit Hnet Hcode Hbody Hservers).
  rewrite (find_server_passes _ _ _ _ Hpre).
  simpl. unfold bind at 1, lift, getitem.
  destruct bad as [| | | | |o]; try reflexivity.
  simpl in Hbad. now rewrite Hbad.
Qed.

Lemma lookup_fails_on_nameless_entry_witness :
  let args := mkDeleteArgs "isaac" true in
  let body :=
    JObj [("servers",
           JArr [JObj [("id", JInt 5)];
                 JObj [("id", JInt 123); ("name", JStr "isaac")]])] in
  let w := listing_world body in
  (isdigit (server_id args) = false /\
   answers w (servers_request sample_manager) (ok_response body) /\
   name_field (JObj [("id", JInt 5)]) = None) /\
  exit_status (fst (delete_server sample_manager args w)) = 1%Z /\
  requests (trace (snd (delete_server sample_manager args w)))
  = [servers_request sample_manager].
Proof.
  intros args body w.
  assert (H1 : isdigit (server_id args) = false) by reflexivity.
  assert (H2 : answers w (servers_request sample_manager) (ok_response body))
    by reflexivity.
  assert (H3 : name_field (JObj [("id", JInt 5)]) = None) by reflexivity.
  split; [repeat split; assumption|].
  rewrite (lookup_fails_on_nameless_entry sample_manager args w
             (ok_response body) _ [] _ (JObj [("id", JInt 5)])
             H1 H2 (or_introl eq_refl) eq_refl eq_refl (Forall_nil _) H3).
  split; reflexivity.
Defined.

(** ** Listing: the edges of the table *)

Lemma length_append (a b : string) :
  String.length (a ++ b) = String.length a + String.length b.
Proof. induction a as [|c a IH]; simpl; [reflexivity|now rewrite IH]. Qed.

Lemma length_replicate_space (n : nat) : String.length (replicate n " ") = n.
Proof. induction n as [|n IH]; simpl; [reflexivity|now rewrite IH]. Qed.

Lemma length_column (field : option string) (width : nat) :
  String.length (column field width) = column_width field width.
Proof.
  unfold column, column_width, ljust.
  rewrite length_append, length_replicate_space. lia.
Qed.

(** A row of the table is never cut: each field takes its column, or its own
    length when that is more, with one space between columns.  So a row is 85
    characters wide when every field fits its column, and wider, pushing the
    following columns to the right, as soon as one does not. *)
Theorem listing_row_width :
  forall (j : json) (r : ServerRow) (w : World),
    row_view j = Some r ->
    exists line,
      print_server_row j w = (Ret tt, after w [EPrint line]) /\
      String.length line
      = column_width (option_map str_of_Z (row_id r)) 10
        + column_width (row_name r) 20
        + column_width (row_status r) 15
        + column_width (row_type r) 10
        + column_width (row_ipv4 r) 15
        + column_width (row_location r) 10 + 5 /\
      85 <= String.length line /\
      (String.length (or_default (option_map str_of_Z (row_id r)) "N/A") <= 10 ->
       String.length (or_default (row_name r) "N/A") <= 20 ->
       String.length (or_default (row_status r) "N/A") <= 15 ->
       String.length (or_default (row_type r) "N/A") <= 10 ->
       String.length (or_default (row_ipv4 r) "N/A") <= 15 ->
       String.length (or_default (row_location r) "N/A") <= 10 ->
       String.length line = 85).
Proof.
  intros j r w Hview. exists (spec_row r).
  split; [now apply print_server_row_spec|].
  assert (Hlen : String.length (spec_row r)
                 = column_width (option_map str_of_Z (row_id r)) 10
                   + column_width (row_name r) 20
                   + column_width (row_status r) 15
                   + column_width (row_type r) 10
                   + column_width (row_ipv4 r) 15
                   + column_width (row_location r) 10 + 5).
  { unfold spec_row. rewrite !length_append, !length_column. simpl. lia. }
  rewrite Hlen. unfold column_width.
  split; [reflexivity|]. split; lia.
Qed.

Lemma listing_row_width_witness :
  let j := JObj [("name", JStr "a-server-name-longer-than-its-column")] in
  let r := mkServerRow None (Some "a-server-name-longer-than-its-column")
             None None None None in
  row_view j = Some r /\
  exists line,
    print_server_row j create_world = (Ret tt, after create_world [EPrint line]) /\
    String.length line = 101.
Proof.
  intros j r.
  assert (H : row_view j = Some r) by reflexivity.
  split; [exact H|].
  destruct (listing_row_width j r create_world H) as (line & Hrun & Hlen & _).
  exists line. split; [exact Hrun|exact Hlen].
Defined.

(** Whatever falsy value the body gives for ["servers"] ([null], an empty
    list, an empty object, an empty string, zero, [false]), the subcommand
    prints [No servers found.] and returns. *)
Theorem listing_without_servers :
  forall (api_manager : HetznerCloudManager.t) (w : World) (resp : Response)
         (kvs : list (string * json)) (v : json),
    answers w (servers_request api_manager) resp ->
    In (status_code resp) [200%Z; 201%Z] ->
    decoded resp = Some (JObj kvs) ->
    lookup "servers" kvs = Some v ->
    truthy v = false ->
    list_servers api_manager w
    = (Ret tt,
       after w [ERequest (servers_request api_manager);
                EPrint "No servers found."]).
Proof.
  intros api_manager w resp kvs v Hnet Hcode Hbody Hservers Hfalsy.
  pose proof (perform_ok api_manager ListServers resp w Hnet
                (proj2 (not_in_false _ _) Hcode)) as Hget.
  simpl in Hget. rewrite Hbody in Hget.
  unfold list_servers. rewrite (bind_Ret _ _ _ _ _ Hget).
  unfold bind at 1, lift, get. rewrite Hservers, Hfalsy. cbn [negb].
  now rewrite print_after, after_after.
Qed.

Lemma listing_without_servers_witness :
  let body := JObj [("servers", JNull)] in
  let w := listing_world body in
  (answers w (servers_request sample_manager) (ok_response body) /\
   In (status_code (ok_response body)) [200%Z; 201%Z] /\
   truthy JNull = false) /\
  printed (trace (snd (list_servers sample_manager w))) = ["No servers found."].
Proof.
  intros body w.
  assert (H1 : answers w (servers_request sample_manager) (ok_response body))
    by reflexivity.
  assert (H2 : In (status_code (ok_response body)) [200%Z; 201%Z])
    by (left; reflexivity).
  assert (H3 : truthy JNull = false) by reflexivity.
  split; [repeat split; assumption|].
  rewrite (listing_without_servers sample_manager w (ok_response body) _ JNull
             H1 H2 eq_refl eq_refl H3).
  reflexivity.
Defined.

(** ** The requests of a run *)

(** In a run of [main] every request carries the resolved token as bearer
    and goes to the provider's API; there are at most two of them, and none
    when no token is resolved. *)
Theorem main_requests_are_authenticated :
  forall (cli : Cli) (w : World),
    exists sent,
      requests (trace (snd (main cli w))) = (requests (trace w) ++ sent)%list /\
      List.length sent <= 2 /\
      forall r,
        In r sent ->
        exists t,
          or_else (cli_token cli) (assoc "HETZNER_API_TOKEN" (environ w))
          = Some t /\
          t <> "" /\
          Sys.headers r
          = [("Authorization", "Bearer " ++ t);
             ("Content-Type", "application/json")] /\
          prefix "https://api.hetzner.cloud/v1/" (url r) = true.
Proof.
  intros cli w.
  destruct (or_else (cli_token cli) (assoc "HETZNER_API_TOKEN" (environ w)))
    as [[|c t]|] eqn:Htoken.
  - exists []. rewrite (main_without_token cli w (or_intror Htoken)). simpl.
    rewrite requests_app. split; [reflexivity|]. split; [lia|intros r []].
  - assert (Ht : String c t <> "") by discriminate.
    rewrite (main_with_token cli w _ Htoken Ht).
    set (api_manager := HetznerCloudManager.init (String c t)).
    assert (Hall : exists sent,
               requests (trace (snd (call_func api_manager
                                       (func (parse_args cli)) w)))
               = (requests (trace w) ++ sent)%list /\
               List.length sent <= 2 /\
               forall r, In r sent ->
                 Sys.headers r
                 = [("Authorization", "Bearer " ++ String c t);
                    ("Content-Type", "application/json")] /\
                 prefix "https://api.hetzner.cloud/v1/" (url r) = true).
    { destruct (func (parse_args cli)) as [args|args|]; simpl.
      - destruct (create_server_request_shape api_manager args w)
          as (posts & Hreq & [-> | (payload & ->)] & _);
          eexists; (split; [exact Hreq|]);
          destruct (ssh_keys args); simpl; (split; [lia|]);
          intros r Hr; repeat (destruct Hr as [<- | Hr]; [now split|]);
          destruct Hr.
      - destruct (delete_server_request_shape api_manager args w)
          as (dels & Hreq & [-> | (sid & ->)] & _);
          eexists; (split; [exact Hreq|]);
          destruct (isdigit (server_id args)); simpl; (split; [lia|]);
          intros r Hr; repeat (destruct Hr as [<- | Hr]; [now split|]);
          destruct Hr.
      - eexists. split; [apply list_servers_requests|]. simpl.
        split; [lia|]. intros r [<- | []]. now split. }
    destruct Hall as (sent & Hreq & Hlen & Hall).
    exists sent. split; [exact Hreq|]. split; [exact Hlen|].
    intros r Hr. exists (String c t).
    destruct (Hall r Hr) as [Hh Hu]. repeat split; assumption.
  - exists []. rewrite (main_without_token cli w (or_introl Htoken)). simpl.
    rewrite requests_app. split; [reflexivity|]. split; [lia|intros r []].
Qed.

Lemma main_requests_are_authenticated_witness :
  let cli := mkCli (Some "secret") (CliDelete (Some "isaac") true) in
  let w := delete_world no_content_response [] in
  exists sent,
    requests (trace (snd (main cli w))) = (requests (trace w) ++ sent)%list /\
    List.length sent <= 2 /\
    forall r,
      In r sent ->
      exists t,
        or_else (cli_token cli) (assoc "HETZNER_API_TOKEN" (environ w))
        = Some t /\
        t <> "" /\
        Sys.headers r
        = [("Authorization", "Bearer " ++ t);
           ("Content-Type", "application/json")] /\
        prefix "https://api.hetzner.cloud/v1/" (url r) = true.
Proof.
  intros cli w. exact (main_requests_are_authenticated cli w).
Defined.

Lemma subcommand_request_shapes_witness :
  let args := mkDeleteArgs "456" true in
  let w := delete_world no_content_response [] in
  isdigit (server_id args) = true /\
  exists dels,
    requests (trace (snd (call_func sample_manager (FDelete args) w)))
    = (requests (trace w) ++ dels)%list /\
    (dels = [] \/ dels = [deletion_request sample_manager "456"]).
Proof.
  intros args w.
  assert (H : isdigit (server_id args) = true) by reflexivity.
  split; [exact H|].
  destruct (subcommand_request_shapes sample_manager (FDelete args) w)
    as (sent & Hreq & dels & Hsent & _ & Hdigit).
  exists dels. split; [|exact (Hdigit H)].
  rewrite Hreq, Hsent. reflexivity.
Defined.

(** ** Creation: a malformed key in the listing *)

Lemma find_ssh_key_passes (ref : string) (pre rest : list json)
    (keys : list Named) (acc : list json) (w : World) :
  map named_view pre = map Some keys ->
  first_key ref keys = None ->
  find_ssh_key ref (pre ++ rest) acc w = find_ssh_key ref rest acc w.
Proof.
  revert keys; induction pre as [|j pre IH]; intros [|k keys] Hview Hnone;
    try discriminate; [reflexivity|].
  simpl in Hview. injection Hview as Hj Hpre.
  apply named_view_Some in Hj as (kvs & -> & Hid & Hname).
  unfold first_key in Hnone. simpl in Hnone.
  destruct (key_matches ref k) eqn:Hk; [discriminate|].
  unfold key_matches in Hk. apply orb_false_iff in Hk as [Hn Hi].
  simpl. unfold bind at 1, lift, getitem. rewrite Hname. simpl. rewrite Hn.
  unfold bind at 1. rewrite Hid. simpl. rewrite Hi.
  now apply (IH keys).
Qed.

(** A reference that no key answers to is skipped, but a listed key that
    lacks its ["name"] or its ["id"] is not: met while the first reference
    is looked for, it ends the subcommand with [KeyError], status 1, after the
    listing and the heading, and the server is not created. *)
Theorem create_server_fails_on_incomplete_key :
  forall (api_manager : HetznerCloudManager.t) (args : CreateArgs) (w : World)
         (resp : Response) (kvs bad : list (string * json))
         (pre post : list json) (keys : list Named)
         (ref : string) (refs : list string),
    ssh_keys args = ref :: refs ->
    answers w (ssh_keys_request api_manager) resp ->
    In (status_code resp) [200%Z; 201%Z] ->
    decoded resp = Some (JObj kvs) ->
    lookup "ssh_keys" kvs = Some (JArr (pre ++ JObj bad :: post)) ->
    map named_view pre = map Some keys ->
    first_key ref keys = None ->
    lookup "name" bad = None \/ lookup "id" bad = None ->
    create_server api_manager args w
    = (Raise KeyError,
       after w [ERequest (ssh_keys_request api_manager);
                EPrint "Using the following SSH keys:"]) /\
    exit_status (fst (create_server api_manager args w)) = 1%Z /\
    requests (trace (snd (create_server api_manager args w)))
    = (requests (trace w) ++ [ssh_keys_request api_manager])%list.
Proof.
  intros api_manager args w resp kvs bad pre post keys ref refs
    Hrefs Hnet Hcode Hbody Hkeys Hview Hnone Hbad.
  assert (Hrun : create_server api_manager args w
                 = (Raise KeyError,
                    after w [ERequest (ssh_keys_request api_manager);
                             EPrint "Using the following SSH keys:"])).
  { unfold create_server. apply bind_Raise.
    unfold ssh_key_ids_of. rewrite Hrefs.
    pose proof (perform_ok api_manager ListSshKeys resp w Hnet
                  (proj2 (not_in_false _ _) Hcode)) as Hget.
    simpl in Hget. rewrite Hbody in Hget.
    rewrite (bind_Ret _ _ _ _ _ Hget).
    unfold bind at 1, lift, get. rewrite Hkeys.
    assert (Htruthy : truthy (JArr (pre ++ JObj bad :: post)) = true).
    { simpl. rewrite length_app. simpl.
      now rewrite Nat.add_succ_r. }
    rewrite Htruthy. run_print.
    simpl resolve_ssh_keys. unfold bind at 1. simpl.
    apply bind_Raise.
    rewrite (find_ssh_key_passes _ _ _ keys _ _ Hview Hnone).
    simpl. unfold bind at 1, lift, getitem.
    destruct (lookup "name" bad) as [n|] eqn:Hn; [|reflexivity].
    destruct Hbad as [Hbad|Hbad]; [discriminate Hbad|].
    simpl. rewrite Hbad.
    now destruct (str_eq ref n). }
  rewrite Hrun. repeat split.
  simpl. rewrite requests_app. reflexivity.
Qed.

Lemma create_server_fails_on_incomplete_key_witness :
  let args := sample_create_args ["b"] in
  let body :=
    JObj [("ssh_keys",
           JArr [JObj [("id", JInt 1); ("name", JStr "a")];
                 JObj [("name", JStr "b")]])] in
  let w := sample_world (ok_response body) created_response
             no_content_response [] [] in
  (ssh_keys args = ["b"] /\
   answers w (ssh_keys_request sample_manager) (ok_response body) /\
   first_key "b" [mkNamed 1 "a"] = None /\
   lookup "id" [("name", JStr "b")] = None) /\
  exit_status (fst (create_server sample_manager args w)) = 1%Z /\
  requests (trace (snd (create_server sample_manager args w)))
  = [ssh_keys_request sample_manager].
Proof.
  intros args body w.
  assert (H1 : ssh_keys args = ["b"]) by reflexivity.
  assert (H2 : answers w (ssh_keys_request sample_manager) (ok_response body))
    by reflexivity.
  assert (H3 : first_key "b" [mkNamed 1 "a"] = None) by reflexivity.
  assert (H4 : lookup "id" [("name", JStr "b")] = None) by reflexivity.
  split; [repeat split; assumption|].
  exact (proj2 (create_server_fails_on_incomplete_key sample_manager args w
                  (ok_response body) _ [("name", JStr "b")]
                  [JObj [("id", JInt 1); ("name", JStr "a")]] []
                  [mkNamed 1 "a"] "b" [] H1 H2 (or_introl eq_refl) eq_refl
                  eq_refl eq_refl H3 (or_intror H4))).
Defined.
